(** * api_yamdb: access control, registration and resource endpoints

    A shallow embedding of [api_yamdb/api/permissions.py] and
    [api_yamdb/api/views.py].  Python values are modelled by the data they
    carry: [request.method] is a string, [self.kwargs] and [request.data]
    are finite maps keyed by strings, [request.user] is either Django's
    [AnonymousUser] or a row of the [User] table, an attribute read either
    yields a value or raises, and a view runs in a state-and-exception
    monad over the persistent store. *)

From Stdlib Require Import ZArith QArith Floats.
From stdpp Require Import base option list sorting gmap strings.

Local Open Scope Z_scope.
Local Open Scope string_scope.

(** ** reviews.models *)

(** Modelled from the spec: [reviews/models.py] is not among the sources.
    Section 3 of the specification gives a [User] a role drawn from the
    enumeration user / moderator / admin. *)
Inductive Role := RoleUser | RoleModerator | RoleAdmin.

#[global] Instance Role_eq_dec : EqDecision Role.
Proof. solve_decision. Defined.

(** Modelled from the spec: a [User] row (identifier, unique username,
    email, role). *)
Record User := mkUser {
  user_pk : Z;
  username : string;
  email : string;
  role : Role
}.

(** Modelled from the spec: "[is_admin] / [is_moderator] are derived
    predicates" of the role. *)
Definition is_admin (u : User) : bool := bool_decide (role u = RoleAdmin).
Definition is_moderator (u : User) : bool := bool_decide (role u = RoleModerator).

(** The model classes imported by [views.py]; [type(obj)] is one of them. *)
Inductive Model :=
  | Category | Comment | ConfirmationCode | Genre | Review | Title | UserModel.

#[global] Instance Model_eq_dec : EqDecision Model.
Proof. solve_decision. Defined.

(** [request.user]: Django's [AnonymousUser] or an authenticated [User]. *)
Inductive Principal :=
  | AnonymousUser
  | Authenticated (u : User).

Definition is_authenticated (p : Principal) : bool :=
  match p with
  | AnonymousUser => false
  | Authenticated _ => true
  end.

(** [request.user.is_authenticated and request.user.<attr>]: Python's [and]
    short-circuits, so the attribute is only read on a [User] row. *)
Definition authenticated_and (attr : User → bool) (p : Principal) : bool :=
  match p with
  | AnonymousUser => false
  | Authenticated u => attr u
  end.

(** [obj.author == request.user]: Django compares model instances by primary
    key; a [User] row never equals [AnonymousUser]. *)
Definition user_eq (a : User) (p : Principal) : bool :=
  match p with
  | AnonymousUser => false
  | Authenticated u => bool_decide (user_pk a = user_pk u)
  end.

(** ** Exceptions *)

Inductive Exception :=
  | ValidationError
  | NotAuthenticated
  | PermissionDenied
  | Http404
  | MethodNotAllowed (m : string)
  | KeyError (k : string)
  | ValueError
  | IntegrityError
  | NotImplementedError
  | SMTPException
  | AttributeError
  | AssertionError
  | ObjectDoesNotExist.

Inductive Outcome (A : Type) :=
  | Return (a : A)
  | Raise (e : Exception).
Arguments Return {A} a.
Arguments Raise {A} e.

(** An object handed to an object-level permission check: its class, and
    what reading [obj.author] gives.  The read yields the [User] the
    object was written by, or raises: [AttributeError] on an object whose
    class has no such attribute, [ObjectDoesNotExist] when the foreign key
    points to no stored user.  It happens only when the check gets to
    [obj.author]. *)
Record Obj := mkObj {
  obj_type : Model;
  author : Outcome User
}.

(** ** rest_framework requests and permissions *)

Record Request := mkRequest {
  method : string;
  user : Principal;
  data : gmap string string
}.

(** [rest_framework.permissions]: [SAFE_METHODS] and [BasePermission],
    whose two checks default to [True]. *)
Module permissions.

Definition SAFE_METHODS : list string := ["GET"; "HEAD"; "OPTIONS"].

Record BasePermission := mkPermission {
  has_permission : Request → bool;
  has_object_permission : Request → Obj → Outcome bool
}.

Definition default : BasePermission :=
  {| has_permission := λ _, true; has_object_permission := λ _ _, Return true |}.

(** [rest_framework.permissions.IsAuthenticated] *)
Definition IsAuthenticated : BasePermission :=
  {| has_permission := λ request, is_authenticated (user request);
     has_object_permission := has_object_permission default |}.

End permissions.

(** [request.method in permissions.SAFE_METHODS] *)
Definition is_safe (m : string) : bool :=
  bool_decide (m ∈ permissions.SAFE_METHODS).

(** ** api.permissions *)

Module IsAuthorOrReadOnlyPermission.

Definition has_permission (request : Request) : bool :=
  is_safe (method request) || is_authenticated (user request).

(** The tests [has_object_permission] may evaluate: the condition of its
    first [if], the condition of its second [if], and the two operands of
    the [or] it returns. *)
Inductive Test := AdminTest | ModeratorTest | AuthorTest | SafeTest.

(** [has_object_permission] with the tests it has evaluated, in the order
    it evaluated them.  Python's [or] reads [obj.author] first and looks at
    the method only when the comparison is false. *)
Definition evaluate (request : Request) (obj : Obj) : list Test * Outcome bool :=
  if authenticated_and is_admin (user request) then ([AdminTest], Return true)
  else if (bool_decide (obj_type obj = Comment)
           || bool_decide (obj_type obj = Review))
          && authenticated_and is_moderator (user request)
  then ([AdminTest; ModeratorTest], Return true)
  else
    match author obj with
    | Raise e => ([AdminTest; ModeratorTest; AuthorTest], Raise e)
    | Return writer =>
        if user_eq writer (user request)
        then ([AdminTest; ModeratorTest; AuthorTest], Return true)
        else ([AdminTest; ModeratorTest; AuthorTest; SafeTest],
              Return (is_safe (method request)))
    end.

Definition has_object_permission (request : Request) (obj : Obj) : Outcome bool :=
  snd (evaluate request obj).

Definition cls : permissions.BasePermission :=
  permissions.mkPermission has_permission has_object_permission.

End IsAuthorOrReadOnlyPermission.

Module IsAdminPermission.

Definition has_permission (request : Request) : bool :=
  authenticated_and is_admin (user request).

Definition cls : permissions.BasePermission :=
  permissions.mkPermission has_permission
    (permissions.has_object_permission permissions.default).

End IsAdminPermission.

Module IsAdminOrReadOnly.

Definition has_permission (request : Request) : bool :=
  if is_safe (method request) then true
  else authenticated_and is_admin (user request).

Definition cls : permissions.BasePermission :=
  permissions.mkPermission has_permission
    (permissions.has_object_permission permissions.default).

End IsAdminOrReadOnly.

(** ** The persistent store and the outside world *)

(** Modelled from the spec: a [ConfirmationCode] row of
    [reviews/models.py], "owned by exactly one User", with its "opaque
    random token string".  A foreign key holds the primary key of the row
    it points to. *)
Record ConfirmationCodeRow := mkConfirmationCode {
  code_pk : Z;
  code_user : Z;
  code : string
}.

(** Modelled from the spec: a [Title] row of [reviews/models.py], with the
    [pub_date] the Titles queryset orders by. *)
Record TitleRow := mkTitle {
  title_pk : Z;
  title_name : string;
  pub_date : Z
}.

(** Modelled from the spec: a [Review] row of [reviews/models.py]: it
    "belongs to one Title, [is] authored by one User, has integer score,
    text body". *)
Record ReviewRow := mkReview {
  review_pk : Z;
  review_title : Z;
  review_author : Z;
  text : string;
  score : Z
}.

(** One message accepted by the email channel. *)
Record Mail := mkMail {
  subject : string;
  message : string;
  from_email : string;
  recipient_list : list string
}.

(** The tables, the mail channel with the messages it has accepted, and
    the entropy [uuid.uuid4] draws from. *)
Record World := mkWorld {
  users : list User;
  confirmation_codes : list ConfirmationCodeRow;
  titles : list TitleRow;
  reviews : list ReviewRow;
  outbox : list Mail;
  mail_up : bool;
  entropy : nat
}.

Definition set_users (f : list User → list User) (w : World) : World :=
  mkWorld (f (users w)) (confirmation_codes w) (titles w) (reviews w)
          (outbox w) (mail_up w) (entropy w).

Definition set_confirmation_codes
    (f : list ConfirmationCodeRow → list ConfirmationCodeRow) (w : World) : World :=
  mkWorld (users w) (f (confirmation_codes w)) (titles w) (reviews w)
          (outbox w) (mail_up w) (entropy w).

Definition set_reviews (f : list ReviewRow → list ReviewRow) (w : World) : World :=
  mkWorld (users w) (confirmation_codes w) (titles w) (f (reviews w))
          (outbox w) (mail_up w) (entropy w).

Definition set_outbox (f : list Mail → list Mail) (w : World) : World :=
  mkWorld (users w) (confirmation_codes w) (titles w) (reviews w)
          (f (outbox w)) (mail_up w) (entropy w).

Definition set_entropy (f : nat → nat) (w : World) : World :=
  mkWorld (users w) (confirmation_codes w) (titles w) (reviews w)
          (outbox w) (mail_up w) (f (entropy w)).

(** ** The view monad *)

(** A view is a state transformer that may raise.  Django runs in
    autocommit mode unless told otherwise, and nothing in the views opens a
    transaction: a write made before an exception stays in the store, so
    the state is threaded through [Raise] as well. *)
Definition M (A : Type) : Type := World → Outcome A * World.

#[global] Instance M_ret : MRet M := λ A a w, (Return a, w).

#[global] Instance M_bind : MBind M := λ A B k c w,
  match c w with
  | (Return a, w') => k a w'
  | (Raise e, w') => (Raise e, w')
  end.

#[global] Instance M_throw : MThrow Exception M := λ A e w, (Raise e, w).

Definition get_world : M World := λ w, (Return w, w).
Definition modify_world (f : World → World) : M unit := λ w, (Return tt, f w).

(** [d[k]] on a dictionary. *)
Definition getitem {V} (d : gmap string V) (k : string) : M V :=
  match d !! k with
  | Some v => mret v
  | None => mthrow (KeyError k)
  end.

(** ** rest_framework responses, exception handling and dispatch *)

Module status.
Definition HTTP_200_OK : Z := 200.
Definition HTTP_201_CREATED : Z := 201.
Definition HTTP_204_NO_CONTENT : Z := 204.
Definition HTTP_400_BAD_REQUEST : Z := 400.
Definition HTTP_401_UNAUTHORIZED : Z := 401.
Definition HTTP_403_FORBIDDEN : Z := 403.
Definition HTTP_404_NOT_FOUND : Z := 404.
Definition HTTP_405_METHOD_NOT_ALLOWED : Z := 405.
End status.

(** What a response carries: nothing, one serialized object, a list of
    them, or a page of a list with its count and the links to its
    neighbours. *)
Inductive Payload :=
  | NoData
  | DictData (d : gmap string string)
  | ListData (l : list (gmap string string))
  | PageData (count : nat) (next previous : option string)
             (results : list (gmap string string)).

Record Response := mkResponse {
  response_data : Payload;
  status_code : Z
}.

(** [rest_framework.views.exception_handler]: API exceptions and [Http404]
    become responses carrying their status code; anything else is
    re-raised to the caller. *)
Definition exception_handler (e : Exception) : option Response :=
  match e with
  | ValidationError => Some (mkResponse NoData status.HTTP_400_BAD_REQUEST)
  | NotAuthenticated => Some (mkResponse NoData status.HTTP_401_UNAUTHORIZED)
  | PermissionDenied => Some (mkResponse NoData status.HTTP_403_FORBIDDEN)
  | Http404 => Some (mkResponse NoData status.HTTP_404_NOT_FOUND)
  | MethodNotAllowed _ => Some (mkResponse NoData status.HTTP_405_METHOD_NOT_ALLOWED)
  | _ => None
  end.

Definition handle_exception (c : M Response) : M Response := λ w,
  match c w with
  | (Return r, w') => (Return r, w')
  | (Raise e, w') =>
      match exception_handler e with
      | Some r => (Return r, w')
      | None => (Raise e, w')
      end
  end.

(** [APIView.permission_denied]: with an authentication scheme configured
    (the views import the JWT one), a request that carries no credentials is
    answered [NotAuthenticated], any other one [PermissionDenied]. *)
Definition permission_denied {A} (request : Request) : M A :=
  if is_authenticated (user request) then mthrow PermissionDenied
  else mthrow NotAuthenticated.

(** [APIView.check_permissions] *)
Fixpoint check_permissions (perms : list permissions.BasePermission)
    (request : Request) : M unit :=
  match perms with
  | [] => mret tt
  | permission :: rest =>
      if permissions.has_permission permission request
      then check_permissions rest request
      else permission_denied request
  end.

(** [GenericAPIView.check_object_permissions] *)
Fixpoint check_object_permissions (perms : list permissions.BasePermission)
    (request : Request) (obj : Obj) : M unit :=
  match perms with
  | [] => mret tt
  | permission :: rest =>
      match permissions.has_object_permission permission request obj with
      | Return true => check_object_permissions rest request obj
      | Return false => permission_denied request
      | Raise e => mthrow e
      end
  end.

(** [APIView.dispatch]: [initial] checks the request-level permissions, then
    the handler for the method runs; exceptions of either step go through
    [handle_exception]. *)
Definition dispatch (perms : list permissions.BasePermission)
    (handler : Request → M Response) (request : Request) : M Response :=
  handle_exception (check_permissions perms request;; handler request).

(** The answers of a refused request: the method is not allowed, or a
    permission class turned the request away. *)
Definition not_allowed : Response :=
  mkResponse NoData status.HTTP_405_METHOD_NOT_ALLOWED.

Definition refusal (request : Request) : Response :=
  mkResponse NoData (if is_authenticated (user request)
                     then status.HTTP_403_FORBIDDEN
                     else status.HTTP_401_UNAUTHORIZED).

(** ** rest_framework.viewsets *)

(** The routes a router registers for a view set. *)
Inductive Route := ListRoute | DetailRoute.

(** A view set over URL keyword arguments [K]: its permission instances and
    its actions.  [update] receives the [partial] flag that
    [partial_update] sets in [kwargs]. *)
Record ViewSet (K : Type) := mkViewSet {
  get_permissions : Request → K → list permissions.BasePermission;
  list_ : Request → K → M Response;
  create : Request → K → M Response;
  retrieve : Request → K → M Response;
  update : bool → Request → K → M Response;
  destroy : Request → K → M Response
}.
Arguments mkViewSet {K}.
Arguments get_permissions {K}.
Arguments list_ {K}.
Arguments create {K}.
Arguments retrieve {K}.
Arguments update {K}.
Arguments destroy {K}.

(** [UpdateModelMixin.partial_update]: sets [partial] and calls
    [self.update], whichever class defines it. *)
Definition partial_update {K} (self : ViewSet K) (request : Request) (kwargs : K)
    : M Response :=
  update self true request kwargs.

(** [APIView.http_method_not_allowed] *)
Definition http_method_not_allowed {K} (request : Request) (_ : K) : M Response :=
  mthrow (MethodNotAllowed (method request)).

(** [APIView.options]: the metadata answer. *)
Definition options {K} (_ : Request) (_ : K) : M Response :=
  mret (mkResponse NoData status.HTTP_200_OK).

(** The handler a router binds to each method of a route; [HEAD] follows
    [GET], and a method without an action is not allowed. *)
Definition handler_for {K} (self : ViewSet K) (route : Route) (m : string)
    : Request → K → M Response :=
  match route with
  | ListRoute =>
      if bool_decide (m = "GET") then list_ self
      else if bool_decide (m = "HEAD") then list_ self
      else if bool_decide (m = "POST") then create self
      else if bool_decide (m = "OPTIONS") then options
      else http_method_not_allowed
  | DetailRoute =>
      if bool_decide (m = "GET") then retrieve self
      else if bool_decide (m = "HEAD") then retrieve self
      else if bool_decide (m = "PUT") then update self false
      else if bool_decide (m = "PATCH") then partial_update self
      else if bool_decide (m = "DELETE") then destroy self
      else if bool_decide (m = "OPTIONS") then options
      else http_method_not_allowed
  end.

(** A request served by a view set. *)
Definition serve {K} (self : ViewSet K) (route : Route) (request : Request)
    (kwargs : K) : M Response :=
  dispatch (get_permissions self request kwargs)
           (λ r, handler_for self route (method r) r kwargs) request.

(** [viewsets.ModelViewSet]: the five mixin actions over the hooks a
    subclass may override ([get_permissions], [get_object],
    [perform_create]) and over what lies outside the sources and is taken
    as an argument:
    - [filtered_queryset], [filter_queryset(get_queryset())]: the filter
      backends read the query string of the request;
    - [paginate_queryset] and [get_paginated_response], what the
      [pagination_class] does with the query string and the settings;
    - [serializer_data], [is_valid] and [serializer_update], what the
      serializer of [api/serializers.py] does: the rendering of an
      instance, the validation of a request into validated data [VD], the
      update of an instance;
    - [instance_delete], [instance.delete()] with the cascades
      [reviews/models.py] declares.
    The result of [perform_create] stands for [serializer.instance], which
    [save] sets. *)
Section ModelViewSet.
Context {K I VD : Type}.
Context (get_permissions : Request → K → list permissions.BasePermission).
Context (get_object : Request → K → M I).
Context (filtered_queryset : Request → K → M (list I)).
Context (paginate_queryset : Request → list I → option (list I)).
Context (get_paginated_response : Request → list I → list (gmap string string) → Payload).
Context (serializer_data : I → gmap string string).
Context (is_valid : Request → K → M VD).
Context (perform_create : Request → K → VD → M I).
Context (serializer_update : bool → I → Request → M I).
Context (instance_delete : I → M unit).

(** What [list] answers with for a filtered queryset: the page the
    paginator cuts out of it, or all of it when the paginator declines. *)
Definition listing (request : Request) (queryset : list I) : Payload :=
  match paginate_queryset request queryset with
  | Some page => get_paginated_response request queryset (serializer_data <$> page)
  | None => ListData (serializer_data <$> queryset)
  end.

Definition ModelViewSet_list (request : Request) (kwargs : K) : M Response :=
  queryset ← filtered_queryset request kwargs;
  mret (mkResponse (listing request queryset) status.HTTP_200_OK).

Definition ModelViewSet_create (request : Request) (kwargs : K) : M Response :=
  validated_data ← is_valid request kwargs;
  instance ← perform_create request kwargs validated_data;
  mret (mkResponse (DictData (serializer_data instance)) status.HTTP_201_CREATED).

Definition ModelViewSet_retrieve (request : Request) (kwargs : K) : M Response :=
  instance ← get_object request kwargs;
  mret (mkResponse (DictData (serializer_data instance)) status.HTTP_200_OK).

Definition ModelViewSet_update (partial : bool) (request : Request) (kwargs : K)
    : M Response :=
  instance ← get_object request kwargs;
  instance' ← serializer_update partial instance request;
  mret (mkResponse (DictData (serializer_data instance')) status.HTTP_200_OK).

Definition ModelViewSet_destroy (request : Request) (kwargs : K) : M Response :=
  instance ← get_object request kwargs;
  instance_delete instance;;
  mret (mkResponse NoData status.HTTP_204_NO_CONTENT).

Definition ModelViewSet : ViewSet K :=
  mkViewSet get_permissions ModelViewSet_list ModelViewSet_create
            ModelViewSet_retrieve ModelViewSet_update ModelViewSet_destroy.
End ModelViewSet.

(** [serializer.is_valid(raise_exception=True)] for a validation that reads
    the request and the store and writes nothing. *)
Definition raise_invalid {K VD} (validate : Request → World → Outcome VD)
    (request : Request) (_ : K) : M VD := λ w, (validate request w, w).

(** [assert lookup_url_kwarg in self.kwargs] followed by the read of the
    key, as [GenericAPIView.get_object] does it. *)
Definition lookup_kwarg {V} (kwargs : gmap string V) (k : string) : M V :=
  match kwargs !! k with
  | Some v => mret v
  | None => mthrow AssertionError
  end.

(** ** api.views *)

(** [django.shortcuts.get_object_or_404] on a table and a row filter. *)
Definition get_object_or_404 {A} (table : World → list A) (matches : A → bool)
    : M A := λ w,
  match find matches (table w) with
  | Some row => (Return row, w)
  | None => (Raise Http404, w)
  end.

(** The next primary key a table hands out. *)
Definition next_pk {A} (pk : A → Z) (table : list A) : Z :=
  1 + foldr Z.max 0 (pk <$> table).

(** [django.core.mail.send_mail]: returns the number of messages handed to
    the channel; when the channel is down it raises, unless asked to fail
    silently. *)
Definition send_mail (subject message from_email : string)
    (recipient_list : list string) (fail_silently : bool) : M Z := λ w,
  if mail_up w then
    (Return 1, set_outbox (.++ [mkMail subject message from_email recipient_list]) w)
  else if fail_silently then (Return 0, w)
  else (Raise SMTPException, w).

Module RegistrationView.
Section view.
(** [settings.ADMIN_EMAIL] and the generator behind [uuid.uuid4] are not
    among the sources. *)
Context (ADMIN_EMAIL : string).
Context (uuid4_hex : nat → string).
(** What the serializer's field validators refuse as malformed. *)
Context (malformed : string → string → bool).

(** [uuid.uuid4().hex] *)
Definition uuid4 : M string := λ w,
  (Return (uuid4_hex (entropy w)), set_entropy S w).

(** Modelled from the spec: [RegistrationSerializer] is defined in
    [api/serializers.py], which is not among the sources.  Register
    "validate[s] uniqueness of username and email" and "fails with
    [ValidationError] if username/email already taken or malformed"; the
    validated data holds the two fields. *)
Definition RegistrationSerializer_is_valid (data : gmap string string)
    : M (gmap string string) := λ w,
  match data !! "username", data !! "email" with
  | Some uname, Some mail =>
      if malformed uname mail
         || bool_decide (uname ∈ username <$> users w)
         || bool_decide (mail ∈ email <$> users w)
      then (Raise ValidationError, w)
      else (Return {[ "username" := uname; "email" := mail ]}, w)
  | _, _ => (Raise ValidationError, w)
  end.

(** Modelled from the spec: [User(username=..., email=...).save()] adds a
    row with a fresh key and the default role; the storage layer is
    "expected to enforce uniqueness constraints (username, email, ...)". *)
Definition User_save (uname mail : string) : M User := λ w,
  if bool_decide (uname ∈ username <$> users w)
     || bool_decide (mail ∈ email <$> users w)
  then (Raise IntegrityError, w)
  else
    let row := mkUser (next_pk user_pk (users w)) uname mail RoleUser in
    (Return row, set_users (.++ [row]) w).

(** Modelled from the spec: [ConfirmationCode(user=..., code=...).save()]
    adds a row owned by the user. *)
Definition ConfirmationCode_save (owner : User) (c : string)
    : M ConfirmationCodeRow := λ w,
  let row := mkConfirmationCode (next_pk code_pk (confirmation_codes w))
                                (user_pk owner) c in
  (Return row, set_confirmation_codes (.++ [row]) w).

Definition post (request : Request) : M Response :=
  data ← RegistrationSerializer_is_valid (data request);
  uname ← getitem data "username";
  mail ← getitem data "email";
  user ← User_save uname mail;
  hex ← uuid4;
  confirmation_code ← ConfirmationCode_save user hex;
  send_mail "Your confirmation code" (code confirmation_code)
            ADMIN_EMAIL [email user] false;;
  mret (mkResponse (DictData data) status.HTTP_200_OK).

(** The view as the server calls it: exceptions raised by [post] pass
    through [handle_exception]. *)
Definition as_view (request : Request) : M Response :=
  handle_exception (post request).

(** The store once [post] has saved the user and the code, when the
    message is about to be handed to the mail channel. *)
Definition registered (w : World) (uname mail : string) : World :=
  set_confirmation_codes
    (.++ [mkConfirmationCode (next_pk code_pk (confirmation_codes w))
                             (next_pk user_pk (users w))
                             (uuid4_hex (entropy w))])
    (set_entropy S
       (set_users (.++ [mkUser (next_pk user_pk (users w)) uname mail RoleUser]) w)).
End view.
End RegistrationView.


Module UserViewSet.

Definition get_permissions (request : Request) (kwargs : gmap string string)
    : list permissions.BasePermission :=
  if bool_decide (kwargs !! "username" = Some "me")
  then [permissions.IsAuthenticated]
  else [IsAdminPermission.cls].

(** [filter_queryset(get_queryset())]: [User.objects.all()] through the
    [SearchFilter] on [username], which reads the query string of the
    request and is taken as the argument [search]. *)
Definition filtered_users (search : Request → list User → list User)
    (request : Request) : M (list User) :=
  w ← get_world; mret (search request (users w)).

(** [GenericAPIView.get_object] with [lookup_field = 'username'].  Both
    permission classes of this view set keep [BasePermission]'s
    object-level check, which allows every object. *)
Definition super_get_object (search : Request → list User → list User)
    (request : Request) (kwargs : gmap string string) : M Principal :=
  queryset ← filtered_users search request;
  name ← lookup_kwarg kwargs "username";
  row ← get_object_or_404 (λ _, queryset) (λ u, bool_decide (username u = name));
  mret (Authenticated row).

Definition get_object (search : Request → list User → list User)
    (request : Request) (kwargs : gmap string string) : M Principal :=
  if bool_decide (kwargs !! "username" = Some "me") then
    if bool_decide (method request = "DELETE")
    then mthrow (MethodNotAllowed (method request))
    else mret (user request)
  else super_get_object search request kwargs.

(** [instance.delete()]: [AnonymousUser] has no row to delete; what the
    deletion of a [User] row takes with it is declared in
    [reviews/models.py] and taken as the argument [delete_user]. *)
Definition perform_destroy (delete_user : User → M unit) (instance : Principal)
    : M unit :=
  match instance with
  | AnonymousUser => mthrow NotImplementedError
  | Authenticated u => delete_user u
  end.

Definition filtered_queryset (search : Request → list User → list User)
    (request : Request) (_ : gmap string string) : M (list Principal) :=
  queryset ← filtered_users search request;
  mret (Authenticated <$> queryset).

(** The class, over what [SearchFilter], [LimitOffsetPagination],
    [UserSerializer] and the deletion of a user do. *)
Definition cls {VD} (search : Request → list User → list User)
    (paginate_queryset : Request → list Principal → option (list Principal))
    (get_paginated_response
       : Request → list Principal → list (gmap string string) → Payload)
    (serializer_data : Principal → gmap string string)
    (is_valid : Request → gmap string string → M VD)
    (perform_create : Request → gmap string string → VD → M Principal)
    (serializer_update : bool → Principal → Request → M Principal)
    (delete_user : User → M unit)
    : ViewSet (gmap string string) :=
  ModelViewSet get_permissions (get_object search) (filtered_queryset search)
               paginate_queryset get_paginated_response serializer_data
               is_valid perform_create serializer_update
               (perform_destroy delete_user).

End UserViewSet.

Module CategoriesViewSet.

Definition retrieve {K} (request : Request) (kwargs : K) : M Response :=
  mret (mkResponse NoData status.HTTP_405_METHOD_NOT_ALLOWED).

Definition update {K} (partial : bool) (request : Request) (kwargs : K)
    : M Response :=
  mret (mkResponse NoData status.HTTP_405_METHOD_NOT_ALLOWED).

(** The class over the [ModelViewSet] built from its queryset and
    serializer: [list], [create] and [destroy] are inherited, [retrieve]
    and [update] overridden. *)
Definition cls {K} (super : ViewSet K) : ViewSet K :=
  mkViewSet (λ _ _, [IsAdminOrReadOnly.cls])
            (list_ super) (create super) retrieve update (destroy super).

End CategoriesViewSet.

(** [class GenresViewSet(CategoriesViewSet)] replaces the queryset and the
    serializer and inherits everything else. *)
Module GenresViewSet.

Definition cls {K} (super : ViewSet K) : ViewSet K := CategoriesViewSet.cls super.

End GenresViewSet.

Module TitleViewSet.

(** The double nearest to an integer: what the database makes of an
    integer sum or count when it divides them as floats. *)
Definition float_of_Z (z : Z) : float :=
  SF2Prim (binary_normalize prec emax z 0 false).

(** [django.db.models.Avg] over an integer column is a float column: NULL
    when no row is joined, otherwise a Python float.  The arithmetic is
    the database's; the model takes the division of the sum of the values
    by their number in binary64, rounded to nearest, which is what a
    database that averages in double precision returns. *)
Definition Avg (values : list Z) : option float :=
  match values with
  | [] => None
  | _ :: _ => Some (PrimFloat.div (float_of_Z (foldr Z.add 0 values))
                                  (float_of_Z (Z.of_nat (length values))))
  end.

(** ['reviews__score']: the scores of the reviews whose foreign key
    points to the title. *)
Definition reviews__score (w : World) (title : TitleRow) : list Z :=
  score <$> filter (λ r, review_title r = title_pk title) (reviews w).

(** [Title.objects.annotate(rating=Avg('reviews__score'))] *)
Definition annotate (w : World) : list (TitleRow * option float) :=
  (λ title, (title, Avg (reviews__score w title))) <$> titles w.

(** [.order_by('-pub_date')] *)
Definition newer_first (a b : TitleRow * option float) : Prop :=
  (pub_date (fst b) ≤ pub_date (fst a))%Z.

#[global] Instance newer_first_dec : RelDecision newer_first.
Proof. intros a b. unfold newer_first. apply _. Defined.

Definition order_by_pub_date_desc (rows : list (TitleRow * option float))
    : list (TitleRow * option float) :=
  merge_sort newer_first rows.

Definition queryset : M (list (TitleRow * option float)) :=
  w ← get_world; mret (order_by_pub_date_desc (annotate w)).

Definition get_serializer_class (request : Request) : string :=
  if bool_decide (method request ∈ ["POST"; "PATCH"])
  then "TitleCreateSerializer"
  else "TitleSerializer".

End TitleViewSet.

(** A value of a serializer's [validated_data] or of the keyword arguments
    of [save]. *)
Inductive Value :=
  | VStr (s : string)
  | VInt (z : Z)
  | VUser (p : Principal)
  | VTitle (t : TitleRow).

Module ReviewViewSet.

Definition permission_classes : list permissions.BasePermission :=
  [IsAuthorOrReadOnlyPermission.cls].

(** [get_object_or_404(Title, id=title_id)] with
    [title_id = self.kwargs.get('title_id')]. *)
Definition get_title (kwargs : gmap string Z) : M TitleRow :=
  let title_id := kwargs !! "title_id" in
  get_object_or_404 titles (λ t, bool_decide (Some (title_pk t) = title_id)).

Definition get_queryset (kwargs : gmap string Z) : M (list ReviewRow) :=
  title ← get_title kwargs;
  w ← get_world;
  mret (filter (λ r, review_title r = title_pk title) (reviews w)).

(** Modelled from the spec: [Review.objects.create] on the merged fields, as
    [ModelSerializer.create] calls it.  A Review "belongs to one Title,
    [is] authored by one User, has integer score, text body", with "at
    most one Review per (Title, User) pair"; the author must be a [User]
    row. *)
Definition Review_objects_create (fields : gmap string Value) : M ReviewRow := λ w,
  match fields !! "author", fields !! "title", fields !! "text", fields !! "score" with
  | Some (VUser (Authenticated u)), Some (VTitle t), Some (VStr body), Some (VInt n) =>
      if bool_decide (Exists (λ r, review_title r = title_pk t
                                   ∧ review_author r = user_pk u) (reviews w))
      then (Raise IntegrityError, w)
      else
        let row := mkReview (next_pk review_pk (reviews w))
                            (title_pk t) (user_pk u) body n in
        (Return row, set_reviews (.++ [row]) w)
  | _, _, _, _ => (Raise ValueError, w)
  end.

(** [BaseSerializer.save]: its keyword arguments are laid over
    [validated_data] before the instance is created. *)
Definition serializer_save (validated_data kwargs : gmap string Value)
    : M ReviewRow :=
  Review_objects_create (kwargs ∪ validated_data).

Definition perform_create (request : Request) (kwargs : gmap string Z)
    (validated_data : gmap string Value) : M ReviewRow :=
  title ← get_title kwargs;
  serializer_save validated_data
    {[ "author" := VUser (user request); "title" := VTitle title ]}.

(** [filter_queryset(get_queryset())]: the filter backends the settings
    name read the query string of the request and are taken as the
    argument [backends]. *)
Definition filtered_queryset (backends : Request → list ReviewRow → list ReviewRow)
    (request : Request) (kwargs : gmap string Z) : M (list ReviewRow) :=
  queryset ← get_queryset kwargs;
  mret (backends request queryset).

(** The object the permission classes see: the row's class, and its
    author as the foreign key resolves when [obj.author] is read. *)
Definition as_obj (w : World) (row : ReviewRow) : Obj :=
  mkObj Review
        match find (λ u, bool_decide (user_pk u = review_author row)) (users w) with
        | Some writer => Return writer
        | None => Raise ObjectDoesNotExist
        end.

(** [GenericAPIView.get_object]: the row of the filtered queryset named by
    [pk], once the object-level permissions have been checked. *)
Definition get_object (backends : Request → list ReviewRow → list ReviewRow)
    (request : Request) (kwargs : gmap string Z) : M ReviewRow :=
  queryset ← filtered_queryset backends request kwargs;
  pk ← lookup_kwarg kwargs "pk";
  row ← get_object_or_404 (λ _, queryset) (λ r, bool_decide (review_pk r = pk));
  w ← get_world;
  check_object_permissions permission_classes request (as_obj w row);;
  mret row.

(** The class, over what the filter backends, [LimitOffsetPagination],
    [ReviewSerializer] and the deletion of a review do; the validation
    reads the request and the store. *)
Definition cls (backends : Request → list ReviewRow → list ReviewRow)
    (paginate_queryset : Request → list ReviewRow → option (list ReviewRow))
    (get_paginated_response
       : Request → list ReviewRow → list (gmap string string) → Payload)
    (serializer_data : ReviewRow → gmap string string)
    (validate : Request → World → Outcome (gmap string Value))
    (serializer_update : bool → ReviewRow → Request → M ReviewRow)
    (delete_review : ReviewRow → M unit)
    : ViewSet (gmap string Z) :=
  ModelViewSet (λ _ _, permission_classes) (get_object backends)
               (filtered_queryset backends) paginate_queryset
               get_paginated_response serializer_data
               (raise_invalid validate) perform_create serializer_update
               delete_review.

End ReviewViewSet.

(** ** The arithmetic mean *)

(** The arithmetic mean of a list of scores, in the specification's words:
    their sum divided by their number. *)
Definition mean (values : list Z) : Q :=
  (inject_Z (foldr Z.add 0%Z values) / inject_Z (Z.of_nat (length values)))%Q.

(** The rational a finite double stands for. *)
Definition float_to_Q (f : float) : option Q :=
  match Prim2SF f with
  | S754_zero _ => Some 0%Q
  | S754_finite negative m e =>
      let n := if negative then Z.neg m else Z.pos m in
      Some (if (0 <=? e)%Z then inject_Z (n * 2 ^ e)
            else Qmake n (Z.to_pos (2 ^ (- e))))
  | _ => None
  end.

(** ** Sample data

    The users, requests and stores the theorems below are exercised on. *)

Definition alice : User := mkUser 1 "alice" "alice@example.com" RoleUser.
Definition root : User := mkUser 2 "root" "root@example.com" RoleAdmin.
Definition carol : User := mkUser 3 "carol" "carol@example.com" RoleModerator.
Definition bob : User := mkUser 4 "bob" "bob@example.com" RoleUser.

Definition request_of (m : string) (p : Principal) : Request := mkRequest m p ∅.

(** Two titles; the first is reviewed with the scores 7 and 9 by two
    users, the review of the second does not count towards its rating. *)
Definition dune : TitleRow := mkTitle 1 "Dune" 1965.
Definition solaris : TitleRow := mkTitle 2 "Solaris" 1961.

Definition shelf : World :=
  mkWorld [alice; root; carol; bob] [] [dune; solaris]
          [mkReview 1 1 1 "slow" 7; mkReview 2 2 1 "fine" 3; mkReview 3 1 2 "great" 9]
          [] true 0.

(** One title with three reviews, scored 1, 2 and 2. *)
Definition thirds : World :=
  mkWorld [alice; root; carol] [] [dune]
          [mkReview 1 1 1 "poor" 1; mkReview 2 1 2 "weak" 2; mkReview 3 1 3 "thin" 2]
          [] true 0.

(** A body that tries to name another author and another title. *)
Definition spoofed_body : gmap string Value :=
  {[ "author" := VUser (Authenticated alice); "title" := VTitle dune;
     "text" := VStr "fair"; "score" := VInt 5 ]}.

(** A deletion that takes the row and nothing with it. *)
Definition drop_review (row : ReviewRow) : M unit :=
  modify_world (set_reviews (filter (λ other, review_pk other ≠ review_pk row))).

Definition drop_user (u : User) : M unit :=
  modify_world (set_users (filter (λ other, user_pk other ≠ user_pk u))).

(** A request without a query string: nothing is filtered out and nothing
    is paginated. *)
Definition unfiltered {A} (_ : Request) (queryset : list A) : list A := queryset.
Definition unpaginated {A} (_ : Request) (_ : list A) : option (list A) := None.
Definition no_page {A} (_ : Request) (_ : list A) (_ : list (gmap string string))
    : Payload := NoData.

(** A Reviews view set whose serializer renders the text of a row and
    accepts the spoofed body whatever the request. *)
Definition reviews_viewset : ViewSet (gmap string Z) :=
  ReviewViewSet.cls unfiltered unpaginated no_page
                    (λ row, {[ "text" := text row ]}) (λ _ _, Return spoofed_body)
                    (λ _ instance _, mret instance) drop_review.

(** The same with a serializer that refuses every body. *)
Definition strict_reviews_viewset : ViewSet (gmap string Z) :=
  ReviewViewSet.cls unfiltered unpaginated no_page
                    (λ row, {[ "text" := text row ]}) (λ _ _, Raise ValidationError)
                    (λ _ instance _, mret instance) drop_review.

(** The review alice wrote on the first title of [shelf], and the store
    once it is deleted. *)
Definition first_review : gmap string Z := {[ "title_id" := 1; "pk" := 1 ]}.

Definition without_first_review : World :=
  set_reviews (filter (λ row, review_pk row ≠ 1)) shelf.

(** A store holding alice only, behind a mail channel that is down, and
    sign-up requests. *)
Definition offline : World := mkWorld [alice] [] [] [] [] false 0.

Definition signup (uname mail : string) : Request :=
  mkRequest "POST" AnonymousUser {[ "username" := uname; "email" := mail ]}.

Definition dave : User := mkUser 2 "dave" "dave@example.com" RoleUser.

Definition offline_after_signup : World :=
  mkWorld [alice; dave] [mkConfirmationCode 1 2 "c0ffee"] [] [] [] false 1.

(** A view set over an empty table, whose serializer accepts nothing. *)
Definition bare_viewset : ViewSet (gmap string string) :=
  ModelViewSet (I:=unit) (VD:=unit) (λ _ _, []) (λ _ _, mthrow Http404)
               (λ _ _, mret []) unpaginated no_page (λ _, ∅)
               (λ _ _, mthrow ValidationError) (λ _ _ _, mret tt)
               (λ _ instance _, mret instance) (λ _, mret tt).

(** The Users view set over a serializer that renders the username and
    accepts nothing. *)
Definition render_user (p : Principal) : gmap string string :=
  match p with
  | Authenticated u => {[ "username" := username u ]}
  | AnonymousUser => ∅
  end.

Definition users_viewset : ViewSet (gmap string string) :=
  UserViewSet.cls (VD:=unit) unfiltered unpaginated no_page render_user
                  (λ _ _, mthrow ValidationError) (λ _ _ _, mthrow ValidationError)
                  (λ _ instance _, mret instance) drop_user.

(** A paginator that cuts the first row out of a queryset, the page it
    answers with, and the Reviews view set behind it. *)
Definition first_row {A} (_ : Request) (queryset : list A) : option (list A) :=
  Some (take 1 queryset).

Definition page_of {A} (_ : Request) (queryset : list A)
    (results : list (gmap string string)) : Payload :=
  PageData (length queryset)
           (if decide (1 < length queryset)%nat then Some "?limit=1&offset=1" else None)
           None results.

Definition paged_reviews_viewset : ViewSet (gmap string Z) :=
  ReviewViewSet.cls unfiltered first_row page_of
                    (λ row, {[ "text" := text row ]}) (λ _ _, Return spoofed_body)
                    (λ _ instance _, mret instance) drop_review.

(** ** Comments *)

(** Modelled from the spec: a [Comment] row of [reviews/models.py]: it
    "belongs to one Review, [is] authored by one User", and has a text
    body. *)
Record CommentRow := mkComment {
  comment_pk : Z;
  comment_review : Z;
  comment_author : Z;
  comment_text : string
}.

(** The store with the Comment table beside the other tables. *)
Record Site := mkSite {
  world : World;
  comments : list CommentRow
}.

(** The view monad over the store with comments. *)
Definition MS (A : Type) : Type := Site → Outcome A * Site.

#[global] Instance MS_ret : MRet MS := λ A a s, (Return a, s).

#[global] Instance MS_bind : MBind MS := λ A B k c s,
  match c s with
  | (Return a, s') => k a s'
  | (Raise e, s') => (Raise e, s')
  end.

#[global] Instance MS_throw : MThrow Exception MS := λ A e s, (Raise e, s).

(** An action on the other tables, run beside the comments. *)
Definition lift {A} (c : M A) : MS A := λ s,
  match c (world s) with
  | (o, w') => (o, mkSite w' (comments s))
  end.

Definition get_site : MS Site := λ s, (Return s, s).

(** A value of the Comment serializer's [validated_data] or of the keyword
    arguments of its [save]. *)
Inductive CommentValue :=
  | CStr (s : string)
  | CUser (p : Principal)
  | CReview (r : ReviewRow).

Module CommentViewSet.

Definition permission_classes : list permissions.BasePermission :=
  [IsAuthorOrReadOnlyPermission.cls].

(** [get_object_or_404(Review, id=review_id)] with
    [review_id = self.kwargs.get('review_id')]. *)
Definition get_review (kwargs : gmap string Z) : MS ReviewRow :=
  let review_id := kwargs !! "review_id" in
  lift (get_object_or_404 reviews (λ r, bool_decide (Some (review_pk r) = review_id))).

(** [Comment.objects.filter(review=review)] *)
Definition get_queryset (kwargs : gmap string Z) : MS (list CommentRow) :=
  review ← get_review kwargs;
  s ← get_site;
  mret (filter (λ c, comment_review c = review_pk review) (comments s)).

(** Modelled from the spec: [Comment.objects.create] on the merged fields,
    as [ModelSerializer.create] calls it.  A Comment "belongs to one
    Review, [is] authored by one User", and has a text body; the author
    must be a [User] row. *)
Definition Comment_objects_create (fields : gmap string CommentValue)
    : MS CommentRow := λ s,
  match fields !! "author", fields !! "review", fields !! "text" with
  | Some (CUser (Authenticated u)), Some (CReview r), Some (CStr body) =>
      let row := mkComment (next_pk comment_pk (comments s))
                           (review_pk r) (user_pk u) body in
      (Return row, mkSite (world s) (comments s ++ [row]))
  | _, _, _ => (Raise ValueError, s)
  end.

(** [BaseSerializer.save]: its keyword arguments are laid over
    [validated_data] before the instance is created. *)
Definition serializer_save (validated_data kwargs : gmap string CommentValue)
    : MS CommentRow :=
  Comment_objects_create (kwargs ∪ validated_data).

Definition perform_create (request : Request) (kwargs : gmap string Z)
    (validated_data : gmap string CommentValue) : MS CommentRow :=
  review ← get_review kwargs;
  serializer_save validated_data
    {[ "author" := CUser (user request); "review" := CReview review ]}.

End CommentViewSet.

(** The exceptions that stop a request before a Review is touched. *)
Definition stops_short (request : Request) (e : Exception) : Prop :=
  e = Http404 ∨ e = AssertionError ∨ e = ObjectDoesNotExist
  ∨ e = PermissionDenied ∨ e = MethodNotAllowed (method request).

(** ** More sample data *)

(** [shelf] with two comments on alice's review of the first title and one
    on root's. *)
Definition forum : Site :=
  mkSite shelf [mkComment 1 1 2 "agreed"; mkComment 2 3 1 "really?";
                mkComment 3 1 4 "not at all"].

(** A comment body that tries to name another author and another review. *)
Definition spoofed_comment : gmap string CommentValue :=
  {[ "author" := CUser (Authenticated alice);
     "review" := CReview (mkReview 3 1 2 "great" 9);
     "text" := CStr "me too" ]}.

(** * Properties *)

(** ** The object-level check *)

Lemma is_safe_spec (m : string) :
  is_safe m = true ↔ m ∈ permissions.SAFE_METHODS.
Proof. unfold is_safe. by rewrite bool_decide_eq_true. Qed.

Lemma is_authenticated_spec (p : Principal) :
  is_authenticated p = true ↔ ∃ u, p = Authenticated u.
Proof.
  destruct p as [|u]; simpl; split.
  - discriminate.
  - intros [u Hu]. discriminate.
  - eauto.
  - done.
Qed.

Lemma admin_is_admin (p : Principal) (u : User) :
  p = Authenticated u → role u = RoleAdmin → authenticated_and is_admin p = true.
Proof. intros -> Hrole. simpl. unfold is_admin. by rewrite bool_decide_eq_true. Qed.

Lemma moderator_not_admin (p : Principal) (u : User) :
  p = Authenticated u → role u = RoleModerator →
  authenticated_and is_admin p = false ∧ authenticated_and is_moderator p = true.
Proof.
  intros -> Hrole. simpl. unfold is_admin, is_moderator. rewrite Hrole. split.
  - by apply bool_decide_eq_false.
  - by apply bool_decide_eq_true.
Qed.

(** The verdict of the object-level check, branch by branch. *)
Lemma has_object_permission_branches (request : Request) (obj : Obj) :
  IsAuthorOrReadOnlyPermission.has_object_permission request obj
  = if authenticated_and is_admin (user request) then Return true
    else if (bool_decide (obj_type obj = Comment)
             || bool_decide (obj_type obj = Review))
            && authenticated_and is_moderator (user request) then Return true
    else match author obj with
         | Return writer =>
             Return (user_eq writer (user request) || is_safe (method request))
         | Raise e => Raise e
         end.
Proof.
  unfold IsAuthorOrReadOnlyPermission.has_object_permission,
    IsAuthorOrReadOnlyPermission.evaluate.
  destruct (authenticated_and is_admin (user request)); [reflexivity|].
  destruct ((bool_decide (obj_type obj = Comment)
             || bool_decide (obj_type obj = Review))
            && authenticated_and is_moderator (user request)); [reflexivity|].
  destruct (author obj) as [writer|e]; [|reflexivity].
  by destruct (user_eq writer (user request)).
Qed.

(** C2: an authenticated principal whose role is admin passes the
    object-level check of [IsAuthorOrReadOnlyPermission] for every method
    and every object, whoever its author and whatever its type, an object
    without an author included. *)
Theorem admin_has_object_permission (request : Request) (obj : Obj) (u : User) :
  user request = Authenticated u →
  role u = RoleAdmin →
  IsAuthorOrReadOnlyPermission.has_object_permission request obj = Return true.
Proof.
  intros Huser Hrole. rewrite has_object_permission_branches.
  by rewrite (admin_is_admin _ _ Huser Hrole).
Qed.

Lemma admin_has_object_permission_witness :
  IsAuthorOrReadOnlyPermission.has_object_permission
    (request_of "DELETE" (Authenticated root)) (mkObj Title (Return alice))
  = Return true
  ∧ IsAuthorOrReadOnlyPermission.has_object_permission
      (request_of "DELETE" (Authenticated root)) (mkObj Category (Raise AttributeError))
    = Return true.
Proof.
  split; by apply (admin_has_object_permission _ _ root).
Defined.

(** C3: for an authenticated moderator, the object-level check allows every
    Review and every Comment whoever wrote it, without reading its author;
    on an object of any other type it is exactly the author-or-safe-method
    fallback, which raises when the object's author cannot be read.  On
    every request and object the tests are evaluated in the order admin,
    moderator on Review/Comment, author, safe method: the admin test always
    comes first, the moderator test is only reached by a principal that is
    not an admin, and the fallback only when the moderator test failed as
    well. *)
Theorem moderator_has_object_permission (request : Request) (obj : Obj) (u : User) :
  user request = Authenticated u →
  role u = RoleModerator →
  (obj_type obj = Review ∨ obj_type obj = Comment →
     IsAuthorOrReadOnlyPermission.evaluate request obj
     = ([IsAuthorOrReadOnlyPermission.AdminTest;
         IsAuthorOrReadOnlyPermission.ModeratorTest], Return true)
     ∧ IsAuthorOrReadOnlyPermission.has_object_permission request obj = Return true)
  ∧ (obj_type obj ≠ Review → obj_type obj ≠ Comment →
     IsAuthorOrReadOnlyPermission.has_object_permission request obj
     = match author obj with
       | Return writer =>
           Return (user_eq writer (user request) || is_safe (method request))
       | Raise e => Raise e
       end)
  ∧ (∀ (request' : Request) (obj' : Obj),
       let tests := fst (IsAuthorOrReadOnlyPermission.evaluate request' obj') in
       tests `prefix_of` [IsAuthorOrReadOnlyPermission.AdminTest;
                          IsAuthorOrReadOnlyPermission.ModeratorTest;
                          IsAuthorOrReadOnlyPermission.AuthorTest;
                          IsAuthorOrReadOnlyPermission.SafeTest]
       ∧ head tests = Some IsAuthorOrReadOnlyPermission.AdminTest
       ∧ (IsAuthorOrReadOnlyPermission.ModeratorTest ∈ tests
          ↔ authenticated_and is_admin (user request') = false)
       ∧ (IsAuthorOrReadOnlyPermission.AuthorTest ∈ tests
          ↔ authenticated_and is_admin (user request') = false
            ∧ (bool_decide (obj_type obj' = Comment)
               || bool_decide (obj_type obj' = Review))
              && authenticated_and is_moderator (user request') = false)
       ∧ (IsAuthorOrReadOnlyPermission.SafeTest ∈ tests
          → ∃ writer, author obj' = Return writer
                      ∧ user_eq writer (user request') = false)).
Proof.
  intros Huser Hrole.
  destruct (moderator_not_admin _ _ Huser Hrole) as [Hadm Hmod].
  split_and!.
  - intros Hty. unfold IsAuthorOrReadOnlyPermission.has_object_permission,
      IsAuthorOrReadOnlyPermission.evaluate. rewrite Hadm, Hmod.
    by destruct Hty as [-> | ->].
  - intros Hrev Hcom. rewrite has_object_permission_branches, Hadm.
    by rewrite (bool_decide_eq_false_2 _ Hrev), (bool_decide_eq_false_2 _ Hcom).
  - intros request' obj'. unfold IsAuthorOrReadOnlyPermission.evaluate.
    destruct (authenticated_and is_admin (user request'));
      [|destruct ((bool_decide (obj_type obj' = Comment)
                   || bool_decide (obj_type obj' = Review))
                  && authenticated_and is_moderator (user request'));
        [|destruct (author obj') as [writer|e];
          [destruct (user_eq writer (user request')) eqn:Hauthor|]]];
      simpl; (split_and!; [by eexists | reflexivity | ..]);
      rewrite ?elem_of_cons, ?elem_of_nil; try (intuition congruence).
    intros _. by exists writer.
Qed.

Lemma moderator_has_object_permission_witness :
  IsAuthorOrReadOnlyPermission.has_object_permission
    (request_of "DELETE" (Authenticated carol)) (mkObj Review (Return alice))
  = Return true
  ∧ IsAuthorOrReadOnlyPermission.has_object_permission
      (request_of "DELETE" (Authenticated carol))
      (mkObj Comment (Raise ObjectDoesNotExist))
    = Return true
  ∧ IsAuthorOrReadOnlyPermission.has_object_permission
      (request_of "DELETE" (Authenticated carol)) (mkObj Title (Return alice))
    = Return false
  ∧ IsAuthorOrReadOnlyPermission.has_object_permission
      (request_of "DELETE" (Authenticated carol)) (mkObj Title (Return carol))
    = Return true
  ∧ IsAuthorOrReadOnlyPermission.has_object_permission
      (request_of "GET" (Authenticated carol)) (mkObj Category (Raise AttributeError))
    = Raise AttributeError.
Proof.
  split_and!.
  - by apply (proj1 (moderator_has_object_permission
                (request_of "DELETE" (Authenticated carol)) (mkObj Review (Return alice))
                carol eq_refl eq_refl)); left.
  - by apply (proj1 (moderator_has_object_permission
                (request_of "DELETE" (Authenticated carol))
                (mkObj Comment (Raise ObjectDoesNotExist))
                carol eq_refl eq_refl)); right.
  - by rewrite (proj1 (proj2 (moderator_has_object_permission
                  (request_of "DELETE" (Authenticated carol)) (mkObj Title (Return alice))
                  carol eq_refl eq_refl))).
  - by rewrite (proj1 (proj2 (moderator_has_object_permission
                  (request_of "DELETE" (Authenticated carol)) (mkObj Title (Return carol))
                  carol eq_refl eq_refl))).
  - by rewrite (proj1 (proj2 (moderator_has_object_permission
                  (request_of "GET" (Authenticated carol))
                  (mkObj Category (Raise AttributeError))
                  carol eq_refl eq_refl))).
Defined.

(** C10, as the code has it: on an object whose author can be read, as on
    every Review and Comment, a safe method passes the object-level check
    of [IsAuthorOrReadOnlyPermission] for every principal, the anonymous
    one included.  On an object whose author cannot be read, the check
    raises what the read raises, unless the principal is passed by the
    admin or the moderator rule: [obj.author] is read before the method is
    looked at. *)
Theorem safe_method_has_object_permission (request : Request) (obj : Obj) :
  method request ∈ permissions.SAFE_METHODS →
  (∀ writer, author obj = Return writer →
     IsAuthorOrReadOnlyPermission.has_object_permission request obj = Return true)
  ∧ (∀ e, author obj = Raise e →
       IsAuthorOrReadOnlyPermission.has_object_permission request obj
       = if authenticated_and is_admin (user request)
            || (bool_decide (obj_type obj = Comment)
                || bool_decide (obj_type obj = Review))
               && authenticated_and is_moderator (user request)
         then Return true
         else Raise e).
Proof.
  intros Hsafe%is_safe_spec. rewrite has_object_permission_branches. split.
  - intros writer ->. rewrite Hsafe, orb_true_r. by repeat case_match.
  - intros e ->. by repeat case_match.
Qed.

Lemma safe_method_has_object_permission_witness :
  IsAuthorOrReadOnlyPermission.has_object_permission
    (request_of "GET" AnonymousUser) (mkObj Review (Return alice)) = Return true
  ∧ IsAuthorOrReadOnlyPermission.has_object_permission
      (request_of "HEAD" (Authenticated bob)) (mkObj Title (Raise AttributeError))
    = Raise AttributeError.
Proof.
  split.
  - apply (proj1 (safe_method_has_object_permission
                    (request_of "GET" AnonymousUser) (mkObj Review (Return alice))
                    ltac:(by apply (bool_decide_unpack _))) alice).
    reflexivity.
  - apply (proj2 (safe_method_has_object_permission
                    (request_of "HEAD" (Authenticated bob))
                    (mkObj Title (Raise AttributeError))
                    ltac:(by apply (bool_decide_unpack _))) AttributeError).
    reflexivity.
Defined.

(** C10 as worded fails: a safe request of an anonymous principal on an
    object that has no author does not get a verdict, the check raises. *)
Lemma safe_method_on_authorless_object_raises :
  method (request_of "GET" AnonymousUser) ∈ permissions.SAFE_METHODS
  ∧ IsAuthorOrReadOnlyPermission.has_object_permission
      (request_of "GET" AnonymousUser) (mkObj Category (Raise AttributeError))
    = Raise AttributeError
  ∧ IsAuthorOrReadOnlyPermission.has_object_permission
      (request_of "GET" AnonymousUser) (mkObj Category (Raise AttributeError))
    ≠ Return true.
Proof.
  split_and!.
  - by apply (bool_decide_unpack _).
  - reflexivity.
  - discriminate.
Qed.

(** ** Dispatch

    How a raised exception travels through [bind], [handle_exception],
    [dispatch] and [serve]. *)

Lemma handle_exception_raise (c : M Response) (w w' : World) (e : Exception) :
  c w = (Raise e, w') →
  handle_exception c w =
    match exception_handler e with
    | Some r => (Return r, w')
    | None => (Raise e, w')
    end.
Proof. intros Hc. unfold handle_exception. by rewrite Hc. Qed.

Lemma handle_exception_return (c : M Response) (w w' : World) (r : Response) :
  c w = (Return r, w') → handle_exception c w = (Return r, w').
Proof. intros Hc. unfold handle_exception. by rewrite Hc. Qed.

Lemma bind_raise {A B} (c : M A) (k : A → M B) (w w' : World) (e : Exception) :
  c w = (Raise e, w') → (c ≫= k) w = (Raise e, w').
Proof. intros Hc. unfold mbind, M_bind. by rewrite Hc. Qed.

Lemma bind_return {A B} (c : M A) (k : A → M B) (w w' : World) (a : A) :
  c w = (Return a, w') → (c ≫= k) w = k a w'.
Proof. intros Hc. unfold mbind, M_bind. by rewrite Hc. Qed.

(** A request refused by the request-level check never reaches its handler:
    the answer is fixed and the store is left as it was. *)
Lemma dispatch_denied (perms : list permissions.BasePermission)
    (handler : Request → M Response) (request : Request) (w : World) (e : Exception) :
  check_permissions perms request w = (Raise e, w) →
  dispatch perms handler request w =
    match exception_handler e with
    | Some r => (Return r, w)
    | None => (Raise e, w)
    end.
Proof.
  intros Hdenied. unfold dispatch.
  apply handle_exception_raise. by apply bind_raise.
Qed.

Lemma dispatch_allowed (perms : list permissions.BasePermission)
    (handler : Request → M Response) (request : Request) (w : World) :
  check_permissions perms request w = (Return tt, w) →
  dispatch perms handler request w = handle_exception (handler request) w.
Proof.
  intros Hok. unfold dispatch, handle_exception.
  by rewrite (bind_return _ _ _ _ _ Hok).
Qed.

Lemma check_permissions_single (permission : permissions.BasePermission)
    (request : Request) (w : World) :
  check_permissions [permission] request w
  = if permissions.has_permission permission request then (Return tt, w)
    else permission_denied request w.
Proof. simpl. by destruct (permissions.has_permission permission request). Qed.

Lemma permission_denied_response {A} (request : Request) (w : World) :
  permission_denied (A:=A) request w
  = (Raise (if is_authenticated (user request) then PermissionDenied
            else NotAuthenticated), w).
Proof. unfold permission_denied. by destruct (is_authenticated (user request)). Qed.

Lemma serve_refused {K} (self : ViewSet K) (route : Route) (request : Request)
    (kwargs : K) (w : World) (permission : permissions.BasePermission) :
  get_permissions self request kwargs = [permission] →
  permissions.has_permission permission request = false →
  serve self route request kwargs w = (Return (refusal request), w).
Proof.
  intros Hperms Hrefused. unfold serve. rewrite Hperms.
  rewrite (dispatch_denied _ _ _ _
             (if is_authenticated (user request) then PermissionDenied
              else NotAuthenticated)).
  - unfold refusal. by destruct (is_authenticated (user request)).
  - rewrite check_permissions_single, Hrefused.
    apply permission_denied_response.
Qed.

Lemma serve_admitted {K} (self : ViewSet K) (route : Route) (request : Request)
    (kwargs : K) (w : World) (permission : permissions.BasePermission) :
  get_permissions self request kwargs = [permission] →
  permissions.has_permission permission request = true →
  serve self route request kwargs w
  = handle_exception (handler_for self route (method request) request kwargs) w.
Proof.
  intros Hperms Hadmitted. unfold serve. rewrite Hperms.
  apply dispatch_allowed. by rewrite check_permissions_single, Hadmitted.
Qed.

(** ** The request-level check *)

(** C4: the request-level check of [IsAuthorOrReadOnlyPermission] allows a
    request exactly when its method is safe or its principal is
    authenticated; an unsafe request of an anonymous principal is refused
    there, and whatever handler the view would have run (object lookup and
    object-level check included) is not run. *)
Theorem has_permission_safe_or_authenticated (request : Request) :
  (IsAuthorOrReadOnlyPermission.has_permission request = true
   ↔ method request ∈ permissions.SAFE_METHODS
     ∨ is_authenticated (user request) = true)
  ∧ (method request ∉ permissions.SAFE_METHODS →
     user request = AnonymousUser →
     IsAuthorOrReadOnlyPermission.has_permission request = false
     ∧ ∀ (handler : Request → M Response) (w : World),
         dispatch [IsAuthorOrReadOnlyPermission.cls] handler request w
         = (Return (mkResponse NoData status.HTTP_401_UNAUTHORIZED), w)).
Proof.
  unfold IsAuthorOrReadOnlyPermission.has_permission. split.
  - rewrite orb_true_iff. by rewrite is_safe_spec.
  - intros Hunsafe Hanon.
    assert (Hno : is_safe (method request) || is_authenticated (user request) = false).
    { rewrite Hanon. simpl. rewrite orb_false_r.
      apply not_true_is_false. by rewrite is_safe_spec. }
    split; [exact Hno|].
    intros handler w.
    rewrite (dispatch_denied _ _ _ _ NotAuthenticated); [reflexivity|].
    simpl. unfold IsAuthorOrReadOnlyPermission.has_permission.
    rewrite Hno. unfold permission_denied. by rewrite Hanon.
Qed.

Lemma has_permission_safe_or_authenticated_witness :
  IsAuthorOrReadOnlyPermission.has_permission (request_of "POST" AnonymousUser) = false
  ∧ dispatch [IsAuthorOrReadOnlyPermission.cls]
             (λ _, mret (mkResponse NoData status.HTTP_201_CREATED))
             (request_of "POST" AnonymousUser)
             (mkWorld [] [] [] [] [] true 0)
    = (Return (mkResponse NoData status.HTTP_401_UNAUTHORIZED),
       mkWorld [] [] [] [] [] true 0).
Proof.
  destruct (proj2 (has_permission_safe_or_authenticated (request_of "POST" AnonymousUser)))
    as [Hdenied Hdispatch].
  - by apply (bool_decide_unpack _).
  - reflexivity.
  - split; [exact Hdenied | apply Hdispatch].
Defined.

(** ** The rating of a Title *)

Lemma Avg_None (values : list Z) : TitleViewSet.Avg values = None ↔ values = [].
Proof. destruct values; simpl; split; done. Qed.

Lemma Avg_quotient (values : list Z) :
  values ≠ [] →
  TitleViewSet.Avg values
  = Some (PrimFloat.div (TitleViewSet.float_of_Z (foldr Z.add 0%Z values))
                        (TitleViewSet.float_of_Z (Z.of_nat (length values)))).
Proof. by destruct values. Qed.

Lemma queryset_rows (w : World) :
  ∃ rows, TitleViewSet.queryset w = (Return rows, w)
          ∧ rows ≡ₚ TitleViewSet.annotate w.
Proof.
  eexists. split; [reflexivity|].
  apply merge_sort_Permutation.
Qed.

Lemma annotate_elem (w : World) (title : TitleRow) (rating : option float) :
  (title, rating) ∈ TitleViewSet.annotate w
  ↔ title ∈ titles w ∧ rating = TitleViewSet.Avg (TitleViewSet.reviews__score w title).
Proof.
  unfold TitleViewSet.annotate. rewrite list_elem_of_fmap. split.
  - intros (t & [= -> ->] & Hin). done.
  - intros [Hin ->]. eauto.
Qed.

(** C5, as the code has it: every Title comes out of the Titles queryset
    once, annotated with a rating computed from the scores of the stored
    reviews whose title it is.  The rating is absent when there is no such
    review; otherwise it is the double obtained by dividing the sum of the
    scores by their number in floating point, the arithmetic mean up to
    that rounding.  Scores 7 and 9 give the rating 8, which is their mean
    exactly. *)
Theorem title_rating_is_mean (w : World) :
  ∃ rows,
    TitleViewSet.queryset w = (Return rows, w)
    ∧ fst <$> rows ≡ₚ titles w
    ∧ ∀ (title : TitleRow) (rating : option float),
        (title, rating) ∈ rows →
        let scores :=
          score <$> filter (λ r, review_title r = title_pk title) (reviews w) in
        (scores = [] ↔ rating = None)
        ∧ (scores ≠ [] →
           rating = Some (PrimFloat.div
                            (TitleViewSet.float_of_Z (foldr Z.add 0%Z scores))
                            (TitleViewSet.float_of_Z (Z.of_nat (length scores)))))
        ∧ (scores = [7; 9] →
           rating = Some 8%float
           ∧ ∃ q, float_to_Q 8%float = Some q ∧ (q == mean scores)%Q).
Proof.
  destruct (queryset_rows w) as (rows & Hrun & Hperm).
  exists rows. split_and!.
  - exact Hrun.
  - rewrite Hperm. unfold TitleViewSet.annotate.
    rewrite <- list_fmap_compose. by rewrite list_fmap_id.
  - intros title rating Hin. rewrite Hperm in Hin.
    apply annotate_elem in Hin as [_ ->].
    unfold TitleViewSet.reviews__score. simpl. split_and!.
    + symmetry. apply Avg_None.
    + apply Avg_quotient.
    + intros ->. split; [reflexivity|].
      eexists. split; reflexivity.
Qed.

Lemma title_rating_is_mean_witness :
  TitleViewSet.queryset shelf
  = (Return [(dune, Some 8%float); (solaris, Some 3%float)], shelf).
Proof.
  destruct (title_rating_is_mean shelf) as (rows & Hrun & _ & Hrows).
  assert (Hdune : (dune, TitleViewSet.Avg [7; 9]) ∈ rows).
  { vm_compute in Hrun. injection Hrun as <-. apply list_elem_of_here. }
  destruct (Hrows _ _ Hdune) as (_ & _ & Height).
  destruct (Height eq_refl) as [Hrating _].
  rewrite Hrun. vm_compute in Hrun. injection Hrun as <-.
  reflexivity.
Defined.

(** C5 as worded fails: the rating of a Title whose reviews are scored 1,
    2 and 2 is a double, and the rational that double stands for is not
    the mean 5/3 of the scores. *)
Lemma title_rating_not_exact_mean :
  ∃ (f : float) (q : Q),
    TitleViewSet.queryset thirds = (Return [(dune, Some f)], thirds)
    ∧ score <$> filter (λ r, review_title r = title_pk dune) (reviews thirds)
      = [1; 2; 2]
    ∧ float_to_Q f = Some q
    ∧ ¬ (q == mean [1; 2; 2]%Z)%Q.
Proof.
  eexists _, _. split_and!.
  - reflexivity.
  - reflexivity.
  - vm_compute. reflexivity.
  - vm_compute. discriminate.
Qed.
(** ** Creating a Review *)

Lemma get_title_missing (kwargs : gmap string Z) (w : World) :
  (∀ t, t ∈ titles w → kwargs !! "title_id" ≠ Some (title_pk t)) →
  ReviewViewSet.get_title kwargs w = (Raise Http404, w).
Proof.
  intros Hmissing. unfold ReviewViewSet.get_title, get_object_or_404.
  destruct (find _ (titles w)) as [t|] eqn:Hfind; [|reflexivity].
  apply find_some in Hfind as [Hin Hpk].
  apply bool_decide_eq_true in Hpk.
  exfalso. apply (Hmissing t); [by apply list_elem_of_In | done].
Qed.

Lemma get_title_found (kwargs : gmap string Z) (w : World) (title_id : Z) :
  kwargs !! "title_id" = Some title_id →
  (∃ t, t ∈ titles w ∧ title_pk t = title_id) →
  ∃ t, ReviewViewSet.get_title kwargs w = (Return t, w)
       ∧ t ∈ titles w ∧ title_pk t = title_id.
Proof.
  intros Hkw (t & Hin & Hpk). unfold ReviewViewSet.get_title, get_object_or_404.
  rewrite Hkw.
  destruct (find _ (titles w)) as [t'|] eqn:Hfind.
  - apply find_some in Hfind as [Hin' Hpk'].
    apply bool_decide_eq_true in Hpk'. injection Hpk' as Hpk'.
    exists t'. split_and!; [reflexivity | by apply list_elem_of_In | done].
  - exfalso. apply list_elem_of_In in Hin.
    pose proof (find_none _ _ Hfind t Hin) as Hno. simpl in Hno.
    apply bool_decide_eq_false in Hno. apply Hno. by rewrite Hpk.
Qed.

(** The keyword arguments of [save] win over the validated body on the
    keys they name, and leave the other keys to it. *)
Lemma save_fields (validated_data : gmap string Value) (p : Principal) (t : TitleRow) :
  let fields :=
    ({[ "author" := VUser p; "title" := VTitle t ]} : gmap string Value)
    ∪ validated_data in
  fields !! "author" = Some (VUser p)
  ∧ fields !! "title" = Some (VTitle t)
  ∧ fields !! "text" = validated_data !! "text"
  ∧ fields !! "score" = validated_data !! "score".
Proof.
  simpl. split_and!.
  - by apply lookup_union_Some_l.
  - by apply lookup_union_Some_l.
  - by apply lookup_union_r.
  - by apply lookup_union_r.
Qed.

(** C6, as the code has it: when the [title_id] of the URL names no Title,
    [perform_create] raises [Http404] and leaves the store as it was, for
    every request and body, and no create request stores a Review; the
    request is answered 404 once it has passed the permission check and
    the validation of its body, which come first: without credentials it
    is answered 401, and with a body the serializer refuses it gets the
    answer of that refusal.  When the [title_id] names a Title, the Review
    that is stored has the requesting user as author and that Title as
    title, whatever the validated body says about either: every Review
    [perform_create] stores is the one new row, written by the requesting
    user on the Title of the URL. *)
Theorem review_perform_create (request : Request) (kwargs : gmap string Z)
    (validated_data : gmap string Value) (w : World) :
  ((∀ t, t ∈ titles w → kwargs !! "title_id" ≠ Some (title_pk t)) →
   ReviewViewSet.perform_create request kwargs validated_data w = (Raise Http404, w)
   ∧ ∀ backends paginate_queryset get_paginated_response serializer_data
       validate serializer_update delete_review,
       method request = "POST" →
       serve (ReviewViewSet.cls backends paginate_queryset get_paginated_response
                                serializer_data validate serializer_update
                                delete_review)
             ListRoute request kwargs w
       = if is_authenticated (user request) then
           match validate request w with
           | Return _ => (Return (mkResponse NoData status.HTTP_404_NOT_FOUND), w)
           | Raise e =>
               match exception_handler e with
               | Some r => (Return r, w)
               | None => (Raise e, w)
               end
           end
         else (Return (mkResponse NoData status.HTTP_401_UNAUTHORIZED), w))
  ∧ (∀ (title_id : Z) (u : User) (body : string) (n : Z),
       kwargs !! "title_id" = Some title_id →
       (∃ t, t ∈ titles w ∧ title_pk t = title_id) →
       user request = Authenticated u →
       validated_data !! "text" = Some (VStr body) →
       validated_data !! "score" = Some (VInt n) →
       ¬ Exists (λ r, review_title r = title_id ∧ review_author r = user_pk u)
                (reviews w) →
       ReviewViewSet.perform_create request kwargs validated_data w
       = (Return (mkReview (next_pk review_pk (reviews w))
                           title_id (user_pk u) body n),
          set_reviews (.++ [mkReview (next_pk review_pk (reviews w))
                                     title_id (user_pk u) body n]) w))
  ∧ (∀ (row : ReviewRow) (w' : World),
       ReviewViewSet.perform_create request kwargs validated_data w = (Return row, w') →
       (∃ u, user request = Authenticated u ∧ review_author row = user_pk u)
       ∧ kwargs !! "title_id" = Some (review_title row)
       ∧ (∃ t, t ∈ titles w ∧ title_pk t = review_title row)
       ∧ w' = set_reviews (.++ [row]) w).
Proof.
  split_and!.
  - intros Hmissing.
    assert (Hraise : ∀ body, ReviewViewSet.perform_create request kwargs body w
                             = (Raise Http404, w)).
    { intros body. unfold ReviewViewSet.perform_create.
      apply bind_raise. by apply get_title_missing. }
    split; [apply Hraise|].
    intros backends paginate_queryset get_paginated_response serializer_data
      validate serializer_update delete_review Hpost.
    destruct (is_authenticated (user request)) eqn:Hauth.
    + rewrite (serve_admitted _ _ _ _ _ IsAuthorOrReadOnlyPermission.cls);
        [|reflexivity|].
      * rewrite Hpost. simpl.
        destruct (validate request w) as [body|e] eqn:Hvalid.
        -- apply (handle_exception_raise _ _ _ Http404).
           unfold ModelViewSet_create.
           rewrite (bind_return _ _ w w body).
           ++ apply bind_raise. apply Hraise.
           ++ unfold raise_invalid. by rewrite Hvalid.
        -- apply handle_exception_raise.
           unfold ModelViewSet_create. apply bind_raise.
           unfold raise_invalid. by rewrite Hvalid.
      * simpl. unfold IsAuthorOrReadOnlyPermission.has_permission.
        rewrite Hauth. by rewrite orb_true_r.
    + rewrite (serve_refused _ _ _ _ _ IsAuthorOrReadOnlyPermission.cls);
        [|reflexivity|].
      * unfold refusal. by rewrite Hauth.
      * simpl. unfold IsAuthorOrReadOnlyPermission.has_permission.
        rewrite Hauth, Hpost. reflexivity.
  - intros title_id u body n Hkw Hexists Huser Htext Hscore Hfresh.
    destruct (get_title_found _ _ _ Hkw Hexists) as (t & Hget & _ & Hpk).
    unfold ReviewViewSet.perform_create.
    rewrite (bind_return _ _ _ _ _ Hget).
    unfold ReviewViewSet.serializer_save, ReviewViewSet.Review_objects_create.
    rewrite Huser.
    destruct (save_fields validated_data (Authenticated u) t)
      as (-> & -> & -> & ->).
    rewrite Htext, Hscore, Hpk.
    rewrite bool_decide_eq_false_2 by exact Hfresh.
    reflexivity.
  - intros row w'. unfold ReviewViewSet.perform_create.
    destruct (ReviewViewSet.get_title kwargs w) as [[t|e] w0] eqn:Hget.
    + rewrite (bind_return _ _ _ _ _ Hget).
      unfold ReviewViewSet.get_title, get_object_or_404 in Hget.
      destruct (find _ (titles w)) as [t'|] eqn:Hfind; [|discriminate].
      injection Hget as -> ->.
      apply find_some in Hfind as [Hin Hpk]. apply bool_decide_eq_true in Hpk.
      unfold ReviewViewSet.serializer_save, ReviewViewSet.Review_objects_create.
      destruct (save_fields validated_data (user request) t) as (-> & -> & _ & _).
      destruct (user request) as [|u]; [discriminate|].
      repeat case_match; try discriminate.
      intros [= <- <-]. simpl. split_and!; eauto.
      exists t. split; [by apply list_elem_of_In | reflexivity].
    + rewrite (bind_raise _ _ _ _ _ Hget). discriminate.
Qed.

Lemma review_perform_create_witness :
  ReviewViewSet.perform_create (request_of "POST" (Authenticated root))
                               {[ "title_id" := 9 ]} spoofed_body shelf
  = (Raise Http404, shelf)
  ∧ serve reviews_viewset ListRoute (request_of "POST" (Authenticated root))
          {[ "title_id" := 9 ]} shelf
    = (Return (mkResponse NoData status.HTTP_404_NOT_FOUND), shelf)
  ∧ ReviewViewSet.perform_create (request_of "POST" (Authenticated root))
                                 {[ "title_id" := 2 ]} spoofed_body shelf
    = (Return (mkReview 4 2 2 "fair" 5),
       set_reviews (.++ [mkReview 4 2 2 "fair" 5]) shelf).
Proof.
  assert (Hmissing : ∀ t, t ∈ titles shelf →
                          ({[ "title_id" := 9 ]} : gmap string Z) !! "title_id"
                          ≠ Some (title_pk t)).
  { intros t Hin.
    repeat (apply elem_of_cons in Hin as [-> | Hin]); [done | done |].
    by apply elem_of_nil in Hin. }
  split_and!.
  - by apply (proj1 (review_perform_create (request_of "POST" (Authenticated root))
                       {[ "title_id" := 9 ]} spoofed_body shelf)).
  - destruct (proj1 (review_perform_create (request_of "POST" (Authenticated root))
                       {[ "title_id" := 9 ]} spoofed_body shelf) Hmissing)
      as [_ Hserve].
    unfold reviews_viewset. by rewrite Hserve.
  - apply (proj1 (proj2 (review_perform_create
                           (request_of "POST" (Authenticated root))
                           {[ "title_id" := 2 ]} spoofed_body shelf))
             2 root "fair" 5).
    + reflexivity.
    + exists solaris. split; [|reflexivity].
      apply list_elem_of_further, list_elem_of_here.
    + reflexivity.
    + reflexivity.
    + reflexivity.
    + apply (bool_decide_unpack _). vm_compute. exact I.
Defined.

(** C6 as worded fails: a create request under a title id that names no
    Title is answered 401 when it carries no credentials, and 400 when the
    serializer refuses its body; neither is answered 404.  No Review is
    stored either way. *)
Lemma review_create_missing_title_not_404 :
  (∀ t, t ∈ titles shelf →
        ({[ "title_id" := 9 ]} : gmap string Z) !! "title_id" ≠ Some (title_pk t))
  ∧ serve reviews_viewset ListRoute (request_of "POST" AnonymousUser)
          {[ "title_id" := 9 ]} shelf
    = (Return (mkResponse NoData status.HTTP_401_UNAUTHORIZED), shelf)
  ∧ serve strict_reviews_viewset ListRoute (request_of "POST" (Authenticated bob))
          {[ "title_id" := 9 ]} shelf
    = (Return (mkResponse NoData status.HTTP_400_BAD_REQUEST), shelf).
Proof.
  split_and!.
  - intros t Hin.
    repeat (apply elem_of_cons in Hin as [-> | Hin]); [done | done |].
    by apply elem_of_nil in Hin.
  - reflexivity.
  - reflexivity.
Qed.
(** ** Registration *)

Section Registration.
Context (ADMIN_EMAIL : string).
Context (uuid4_hex : nat → string).
Context (malformed : string → string → bool).

Abbreviation is_valid := (RegistrationView.RegistrationSerializer_is_valid malformed).
Abbreviation post := (RegistrationView.post ADMIN_EMAIL uuid4_hex malformed).
Abbreviation as_view := (RegistrationView.as_view ADMIN_EMAIL uuid4_hex malformed).
Abbreviation registered := (RegistrationView.registered uuid4_hex).

Lemma is_valid_taken_username (data : gmap string string) (w : World) (uname : string) :
  data !! "username" = Some uname →
  uname ∈ username <$> users w →
  is_valid data w = (Raise ValidationError, w).
Proof.
  intros Hname Htaken. unfold RegistrationView.RegistrationSerializer_is_valid.
  rewrite Hname. destruct (data !! "email") as [mail|]; [|reflexivity].
  rewrite (bool_decide_eq_true_2 _ Htaken).
  by rewrite orb_true_r.
Qed.

Lemma is_valid_fresh (data : gmap string string) (w : World) (uname mail : string) :
  data !! "username" = Some uname →
  data !! "email" = Some mail →
  malformed uname mail = false →
  uname ∉ username <$> users w →
  mail ∉ email <$> users w →
  is_valid data w = (Return {[ "username" := uname; "email" := mail ]}, w).
Proof.
  intros Hname Hmail Hwell Hfresh Hfresh'.
  unfold RegistrationView.RegistrationSerializer_is_valid.
  rewrite Hname, Hmail, Hwell.
  by rewrite (bool_decide_eq_false_2 _ Hfresh), (bool_decide_eq_false_2 _ Hfresh').
Qed.

Lemma User_save_fresh (w : World) (uname mail : string) :
  uname ∉ username <$> users w →
  mail ∉ email <$> users w →
  RegistrationView.User_save uname mail w
  = (Return (mkUser (next_pk user_pk (users w)) uname mail RoleUser),
     set_users (.++ [mkUser (next_pk user_pk (users w)) uname mail RoleUser]) w).
Proof.
  intros Hfresh Hfresh'. unfold RegistrationView.User_save.
  by rewrite (bool_decide_eq_false_2 _ Hfresh), (bool_decide_eq_false_2 _ Hfresh').
Qed.

Lemma post_reaches_send_mail (request : Request) (w : World) (uname mail : string) :
  data request !! "username" = Some uname →
  data request !! "email" = Some mail →
  malformed uname mail = false →
  uname ∉ username <$> users w →
  mail ∉ email <$> users w →
  post request w
  = (send_mail "Your confirmation code" (uuid4_hex (entropy w)) ADMIN_EMAIL [mail] false;;
     mret (mkResponse (DictData {[ "username" := uname; "email" := mail ]})
                      status.HTTP_200_OK))
      (registered w uname mail).
Proof.
  intros Hname Hmail Hwell Hfresh Hfresh'. unfold RegistrationView.post.
  rewrite (bind_return _ _ _ _ _ (is_valid_fresh _ _ _ _ Hname Hmail Hwell Hfresh Hfresh')).
  unfold getitem. rewrite lookup_insert_eq.
  rewrite lookup_insert_ne, lookup_singleton_eq by done.
  rewrite (bind_return _ _ w w uname) by reflexivity.
  rewrite (bind_return _ _ w w mail) by reflexivity.
  rewrite (bind_return _ _ _ _ _ (User_save_fresh _ _ _ Hfresh Hfresh')).
  reflexivity.
Qed.

(** With the mail channel up, registration answers 200 and hands exactly
    one message, carrying the code, to the channel. *)
Lemma register_mail_up (request : Request) (w : World) (uname mail : string) :
  data request !! "username" = Some uname →
  data request !! "email" = Some mail →
  malformed uname mail = false →
  uname ∉ username <$> users w →
  mail ∉ email <$> users w →
  mail_up w = true →
  post request w
  = (Return (mkResponse (DictData {[ "username" := uname; "email" := mail ]})
                        status.HTTP_200_OK),
     set_outbox (.++ [mkMail "Your confirmation code" (uuid4_hex (entropy w))
                             ADMIN_EMAIL [mail]])
                (registered w uname mail)).
Proof.
  intros Hname Hmail Hwell Hfresh Hfresh' Hup.
  rewrite (post_reaches_send_mail _ _ _ _ Hname Hmail Hwell Hfresh Hfresh').
  unfold mbind, M_bind, send_mail. simpl. by rewrite Hup.
Qed.

(** C9: a Register call whose username belongs to an existing User raises
    [ValidationError] (answered 400) out of the serializer, before
    anything is saved or sent: the users, the confirmation codes and the
    mail channel are as they were. *)
Theorem register_taken_username (request : Request) (w : World) (uname : string) :
  data request !! "username" = Some uname →
  uname ∈ username <$> users w →
  post request w = (Raise ValidationError, w)
  ∧ as_view request w
    = (Return (mkResponse NoData status.HTTP_400_BAD_REQUEST), w).
Proof.
  intros Hname Htaken.
  assert (Hpost : post request w = (Raise ValidationError, w)).
  { unfold RegistrationView.post. apply bind_raise.
    by apply (is_valid_taken_username _ _ uname). }
  split; [exact Hpost|].
  unfold RegistrationView.as_view.
  by rewrite (handle_exception_raise _ _ _ _ Hpost).
Qed.

(** C1, amended: with valid, non-duplicate input and the mail channel
    down, Register raises the channel's error, which no handler turns
    into a response; no message is sent, and the User and the
    ConfirmationCode saved before the dispatch stay in the store. *)
Theorem register_mail_down (request : Request) (w : World) (uname mail : string) :
  data request !! "username" = Some uname →
  data request !! "email" = Some mail →
  malformed uname mail = false →
  uname ∉ username <$> users w →
  mail ∉ email <$> users w →
  mail_up w = false →
  post request w = (Raise SMTPException, registered w uname mail)
  ∧ as_view request w = (Raise SMTPException, registered w uname mail)
  ∧ outbox (registered w uname mail) = outbox w
  ∧ users (registered w uname mail)
    = (users w ++ [mkUser (next_pk user_pk (users w)) uname mail RoleUser])%list
  ∧ confirmation_codes (registered w uname mail)
    = (confirmation_codes w
       ++ [mkConfirmationCode (next_pk code_pk (confirmation_codes w))
                              (next_pk user_pk (users w))
                              (uuid4_hex (entropy w))])%list.
Proof.
  intros Hname Hmail Hwell Hfresh Hfresh' Hdown.
  assert (Hpost : post request w = (Raise SMTPException, registered w uname mail)).
  { rewrite (post_reaches_send_mail _ _ _ _ Hname Hmail Hwell Hfresh Hfresh').
    unfold mbind, M_bind, send_mail. simpl. by rewrite Hdown. }
  split_and!; try reflexivity; [exact Hpost|].
  unfold RegistrationView.as_view.
  by rewrite (handle_exception_raise _ _ _ _ Hpost).
Qed.
End Registration.

Lemma register_taken_username_witness :
  RegistrationView.post "admin@yamdb.fake" (λ _, "c0ffee") (λ _ _, false)
                        (signup "alice" "other@example.com") offline
  = (Raise ValidationError, offline).
Proof.
  apply (register_taken_username "admin@yamdb.fake" (λ _, "c0ffee") (λ _ _, false)
           (signup "alice" "other@example.com") offline "alice").
  - reflexivity.
  - apply (bool_decide_unpack _). vm_compute. exact I.
Defined.

Lemma register_mail_down_witness :
  RegistrationView.post "admin@yamdb.fake" (λ _, "c0ffee") (λ _ _, false)
                        (signup "dave" "dave@example.com") offline
  = (Raise SMTPException, offline_after_signup).
Proof.
  apply (register_mail_down "admin@yamdb.fake" (λ _, "c0ffee") (λ _ _, false)
           (signup "dave" "dave@example.com") offline "dave" "dave@example.com").
  - reflexivity.
  - reflexivity.
  - reflexivity.
  - apply (bool_decide_unpack _). vm_compute. exact I.
  - apply (bool_decide_unpack _). vm_compute. exact I.
  - reflexivity.
Defined.

(** The failed call leaves a User and a ConfirmationCode behind. *)
Lemma register_mail_down_not_rolled_back :
  RegistrationView.post "admin@yamdb.fake" (λ _, "c0ffee") (λ _ _, false)
                        (signup "dave" "dave@example.com") offline
  = (Raise SMTPException, offline_after_signup)
  ∧ users offline = [alice]
  ∧ users offline_after_signup = [alice; dave]
  ∧ confirmation_codes offline = []
  ∧ confirmation_codes offline_after_signup = [mkConfirmationCode 1 2 "c0ffee"]
  ∧ ¬ (users offline_after_signup = users offline
       ∧ confirmation_codes offline_after_signup = confirmation_codes offline).
Proof.
  split_and!; try reflexivity.
  intros [Husers _]. discriminate Husers.
Qed.

(** ** Categories, Genres and the ["me"] alias *)

(** C7, amended: the [retrieve] and [update] handlers of the Categories and
    Genres view sets answer 405 whatever the request.  Retrieving one
    category or genre is answered 405 for every principal; updating one
    (PUT or PATCH) is answered 405 for an authenticated admin, the only
    principal [IsAdminOrReadOnly] lets through, and is refused by that
    check (403, or 401 without credentials) for everyone else.  Listing,
    creating and deleting stay the inherited actions. *)
Theorem categories_retrieve_update_not_allowed {K} (super self : ViewSet K)
    (request : Request) (kwargs : K) (w : World) :
  self = CategoriesViewSet.cls super ∨ self = GenresViewSet.cls super →
  (retrieve self request kwargs w = (Return not_allowed, w)
   ∧ ∀ partial, update self partial request kwargs w = (Return not_allowed, w))
  ∧ (method request = "GET" →
     serve self DetailRoute request kwargs w = (Return not_allowed, w))
  ∧ (method request = "PUT" ∨ method request = "PATCH" →
     (authenticated_and is_admin (user request) = true →
      serve self DetailRoute request kwargs w = (Return not_allowed, w))
     ∧ (authenticated_and is_admin (user request) = false →
        serve self DetailRoute request kwargs w = (Return (refusal request), w)))
  ∧ (handler_for self ListRoute "GET" = list_ super
     ∧ handler_for self ListRoute "POST" = create super
     ∧ handler_for self DetailRoute "DELETE" = destroy super).
Proof.
  intros Hself.
  assert (self = CategoriesViewSet.cls super) as ->.
  { by destruct Hself as [->| ->]. }
  split_and!; try reflexivity.
  - intros Hget.
    rewrite (serve_admitted _ _ _ _ _ IsAdminOrReadOnly.cls); [|reflexivity|].
    + by rewrite Hget.
    + simpl. unfold IsAdminOrReadOnly.has_permission. by rewrite Hget.
  - intros Hmethod. split.
    + intros Hadmin.
      rewrite (serve_admitted _ _ _ _ _ IsAdminOrReadOnly.cls); [|reflexivity|].
      * by destruct Hmethod as [-> | ->].
      * simpl. unfold IsAdminOrReadOnly.has_permission.
        rewrite Hadmin. by destruct (is_safe (method request)).
    + intros Hother.
      apply (serve_refused _ _ _ _ _ IsAdminOrReadOnly.cls); [reflexivity|].
      simpl. unfold IsAdminOrReadOnly.has_permission.
      rewrite Hother. by destruct Hmethod as [-> | ->].
Qed.

Lemma categories_retrieve_update_not_allowed_witness :
  serve (CategoriesViewSet.cls bare_viewset) DetailRoute
        (request_of "GET" AnonymousUser) {[ "slug" := "books" ]} offline
  = (Return not_allowed, offline)
  ∧ serve (GenresViewSet.cls bare_viewset) DetailRoute
          (request_of "PATCH" (Authenticated root)) {[ "slug" := "jazz" ]} offline
    = (Return not_allowed, offline).
Proof.
  split.
  - destruct (categories_retrieve_update_not_allowed bare_viewset
                (CategoriesViewSet.cls bare_viewset)
                (request_of "GET" AnonymousUser) {[ "slug" := "books" ]} offline
                (or_introl eq_refl)) as (_ & Hretrieve & _).
    by apply Hretrieve.
  - destruct (categories_retrieve_update_not_allowed bare_viewset
                (GenresViewSet.cls bare_viewset)
                (request_of "PATCH" (Authenticated root)) {[ "slug" := "jazz" ]} offline
                (or_intror eq_refl)) as (_ & _ & Hupdate & _).
    destruct Hupdate as [Hadmin _]; [by right|].
    by apply Hadmin.
Defined.

(** An update sent by a regular user is refused by the permission check and
    answered 403, not 405; without credentials it is answered 401. *)
Lemma categories_update_by_user_forbidden :
  serve (CategoriesViewSet.cls bare_viewset) DetailRoute
        (request_of "PUT" (Authenticated alice)) {[ "slug" := "books" ]} offline
  = (Return (mkResponse NoData status.HTTP_403_FORBIDDEN), offline)
  ∧ serve (CategoriesViewSet.cls bare_viewset) DetailRoute
          (request_of "PATCH" AnonymousUser) {[ "slug" := "books" ]} offline
    = (Return (mkResponse NoData status.HTTP_401_UNAUTHORIZED), offline)
  ∧ status.HTTP_403_FORBIDDEN ≠ status.HTTP_405_METHOD_NOT_ALLOWED
  ∧ status.HTTP_401_UNAUTHORIZED ≠ status.HTTP_405_METHOD_NOT_ALLOWED.
Proof. split_and!; done. Qed.

Section me_alias.
Context {VD : Type}.
Context (search : Request → list User → list User).
Context (paginate_queryset : Request → list Principal → option (list Principal)).
Context (get_paginated_response
           : Request → list Principal → list (gmap string string) → Payload).
Context (serializer_data : Principal → gmap string string).
Context (is_valid : Request → gmap string string → M VD).
Context (perform_create : Request → gmap string string → VD → M Principal).
Context (serializer_update : bool → Principal → Request → M Principal).
Context (delete_user : User → M unit).

Abbreviation viewset :=
  (UserViewSet.cls search paginate_queryset get_paginated_response
                   serializer_data is_valid perform_create serializer_update
                   delete_user).

Lemma me_permissions (request : Request) (kwargs : gmap string string) :
  kwargs !! "username" = Some "me" →
  get_permissions viewset request kwargs = [permissions.IsAuthenticated].
Proof.
  intros Hme. simpl. unfold UserViewSet.get_permissions.
  by rewrite (bool_decide_eq_true_2 _ Hme).
Qed.

Lemma me_get_object (request : Request) (kwargs : gmap string string) :
  kwargs !! "username" = Some "me" →
  UserViewSet.get_object search request kwargs
  = if bool_decide (method request = "DELETE")
    then mthrow (MethodNotAllowed (method request))
    else mret (user request).
Proof.
  intros Hme. unfold UserViewSet.get_object.
  by rewrite (bool_decide_eq_true_2 _ Hme).
Qed.

(** C8, amended: on the alias ["me"], [get_object] raises
    [MethodNotAllowed] for DELETE whoever asks, and a DELETE request is
    answered 405 for every authenticated principal whatever the role;
    an anonymous principal is refused by [IsAuthenticated] (401) before
    [get_object] runs.  For any other method [get_object] returns the
    requesting principal, and the only permission asked for is to be
    authenticated: a GET by an authenticated user is answered with that
    user's own data. *)
Theorem me_alias (request : Request) (kwargs : gmap string string) (w : World) :
  kwargs !! "username" = Some "me" →
  (method request = "DELETE" →
   UserViewSet.get_object search request kwargs w = (Raise (MethodNotAllowed "DELETE"), w)
   ∧ (is_authenticated (user request) = true →
      serve viewset DetailRoute request kwargs w = (Return not_allowed, w))
   ∧ (user request = AnonymousUser →
      serve viewset DetailRoute request kwargs w
      = (Return (mkResponse NoData status.HTTP_401_UNAUTHORIZED), w)))
  ∧ (method request ≠ "DELETE" →
     UserViewSet.get_object search request kwargs w = (Return (user request), w))
  ∧ UserViewSet.get_permissions request kwargs = [permissions.IsAuthenticated]
  ∧ (check_permissions (UserViewSet.get_permissions request kwargs) request w
     = (Return tt, w)
     ↔ is_authenticated (user request) = true)
  ∧ (method request = "GET" →
     is_authenticated (user request) = true →
     serve viewset DetailRoute request kwargs w
     = (Return (mkResponse (DictData (serializer_data (user request)))
                           status.HTTP_200_OK), w)).
Proof.
  intros Hme.
  pose proof (me_permissions request kwargs Hme) as Hperms.
  pose proof (me_get_object request kwargs Hme) as Hobj.
  split_and!.
  - intros Hdelete.
    assert (Hraise : UserViewSet.get_object search request kwargs w
                     = (Raise (MethodNotAllowed "DELETE"), w)).
    { rewrite Hobj, Hdelete. reflexivity. }
    split_and!; [exact Hraise| |].
    + intros Hauth.
      rewrite (serve_admitted _ _ _ _ _ _ Hperms Hauth).
      rewrite Hdelete. simpl.
      apply (handle_exception_raise _ _ _ (MethodNotAllowed "DELETE")).
      unfold ModelViewSet_destroy. by apply bind_raise.
    + intros Hanon.
      rewrite (serve_refused _ _ _ _ _ _ Hperms).
      * unfold refusal. by rewrite Hanon.
      * simpl. by rewrite Hanon.
  - intros Hother. rewrite Hobj.
    by rewrite (bool_decide_eq_false_2 _ Hother).
  - exact Hperms.
  - simpl in Hperms. rewrite Hperms, check_permissions_single. simpl.
    destruct (is_authenticated (user request)) eqn:Hauth.
    + done.
    + rewrite permission_denied_response, Hauth. split; discriminate.
  - intros Hget Hauth.
    rewrite (serve_admitted _ _ _ _ _ _ Hperms Hauth).
    rewrite Hget. simpl.
    apply handle_exception_return.
    unfold ModelViewSet_retrieve.
    rewrite (bind_return _ _ w w (user request)); [reflexivity|].
    rewrite Hobj, Hget. reflexivity.
Qed.
End me_alias.

Lemma me_alias_witness :
  serve users_viewset DetailRoute (request_of "DELETE" (Authenticated alice))
        {[ "username" := "me" ]} offline
  = (Return not_allowed, offline)
  ∧ UserViewSet.get_object unfiltered (request_of "PATCH" (Authenticated alice))
                           {[ "username" := "me" ]} offline
    = (Return (Authenticated alice), offline)
  ∧ serve users_viewset DetailRoute (request_of "GET" (Authenticated alice))
          {[ "username" := "me" ]} offline
    = (Return (mkResponse (DictData {[ "username" := "alice" ]}) status.HTTP_200_OK),
       offline).
Proof.
  split_and!.
  - destruct (me_alias (VD:=unit) unfiltered unpaginated no_page render_user
                (λ _ _, mthrow ValidationError) (λ _ _ _, mthrow ValidationError)
                (λ _ instance _, mret instance) drop_user
                (request_of "DELETE" (Authenticated alice))
                {[ "username" := "me" ]} offline) as (Hdelete & _);
      [reflexivity|].
    destruct (Hdelete eq_refl) as (_ & Hserved & _).
    by apply Hserved.
  - destruct (me_alias (VD:=unit) unfiltered unpaginated no_page render_user
                (λ _ _, mthrow ValidationError) (λ _ _ _, mthrow ValidationError)
                (λ _ instance _, mret instance) drop_user
                (request_of "PATCH" (Authenticated alice))
                {[ "username" := "me" ]} offline) as (_ & Hother & _);
      [reflexivity|].
    by apply Hother.
  - destruct (me_alias (VD:=unit) unfiltered unpaginated no_page render_user
                (λ _ _, mthrow ValidationError) (λ _ _ _, mthrow ValidationError)
                (λ _ instance _, mret instance) drop_user
                (request_of "GET" (Authenticated alice))
                {[ "username" := "me" ]} offline) as (_ & _ & _ & _ & Hget);
      [reflexivity|].
    by apply Hget.
Defined.

(** A DELETE on ["me"] without credentials is answered 401, not 405. *)
Lemma me_delete_anonymous_unauthorized :
  serve users_viewset DetailRoute (request_of "DELETE" AnonymousUser)
        {[ "username" := "me" ]} offline
  = (Return (mkResponse NoData status.HTTP_401_UNAUTHORIZED), offline)
  ∧ status.HTTP_401_UNAUTHORIZED ≠ status.HTTP_405_METHOD_NOT_ALLOWED.
Proof. split; done. Qed.

(** ** The Reviews endpoint, end to end

    The permission rules as the Reviews view set applies them to the review
    alice wrote on the first title of [shelf]. *)

Example review_destroy_by_moderator :
  serve reviews_viewset DetailRoute (request_of "DELETE" (Authenticated carol))
        first_review shelf
  = (Return (mkResponse NoData status.HTTP_204_NO_CONTENT), without_first_review).
Proof. reflexivity. Qed.

Example review_destroy_by_author :
  serve reviews_viewset DetailRoute (request_of "DELETE" (Authenticated alice))
        first_review shelf
  = (Return (mkResponse NoData status.HTTP_204_NO_CONTENT), without_first_review).
Proof. reflexivity. Qed.

Example review_destroy_by_stranger :
  serve reviews_viewset DetailRoute (request_of "DELETE" (Authenticated bob))
        first_review shelf
  = (Return (mkResponse NoData status.HTTP_403_FORBIDDEN), shelf).
Proof. reflexivity. Qed.

Example review_destroy_anonymous :
  serve reviews_viewset DetailRoute (request_of "DELETE" AnonymousUser)
        first_review shelf
  = (Return (mkResponse NoData status.HTTP_401_UNAUTHORIZED), shelf).
Proof. reflexivity. Qed.

Example review_retrieve_anonymous :
  serve reviews_viewset DetailRoute (request_of "GET" AnonymousUser)
        first_review shelf
  = (Return (mkResponse (DictData {[ "text" := "slow" ]}) status.HTTP_200_OK), shelf).
Proof. reflexivity. Qed.

Example review_create_by_user :
  serve reviews_viewset ListRoute (request_of "POST" (Authenticated bob))
        {[ "title_id" := 2 ]} shelf
  = (Return (mkResponse (DictData {[ "text" := "fair" ]}) status.HTTP_201_CREATED),
     set_reviews (.++ [mkReview 4 2 4 "fair" 5]) shelf).
Proof. reflexivity. Qed.

(** * Further properties *)

(** ** The permission classes together *)

Lemma authenticated_and_spec (attr : User → bool) (p : Principal) :
  authenticated_and attr p = true ↔ ∃ u, p = Authenticated u ∧ attr u = true.
Proof.
  destruct p as [|u]; simpl; split.
  - discriminate.
  - intros (u & Hu & _). discriminate.
  - eauto.
  - by intros (u' & [= <-] & Hattr).
Qed.

Lemma is_admin_spec (u : User) : is_admin u = true ↔ role u = RoleAdmin.
Proof. unfold is_admin. apply bool_decide_eq_true. Qed.

Lemma is_moderator_spec (u : User) : is_moderator u = true ↔ role u = RoleModerator.
Proof. unfold is_moderator. apply bool_decide_eq_true. Qed.

Lemma user_eq_spec (a : User) (p : Principal) :
  user_eq a p = true ↔ ∃ u, p = Authenticated u ∧ user_pk a = user_pk u.
Proof.
  destruct p as [|u]; simpl; split.
  - discriminate.
  - intros (u & Hu & _). discriminate.
  - intros Hpk%bool_decide_eq_true. eauto.
  - intros (u' & [= <-] & Hpk). by apply bool_decide_eq_true.
Qed.

(** The two role rules of the object-level check, as one test. *)
Lemma role_rules_spec (request : Request) (obj : Obj) :
  authenticated_and is_admin (user request)
  || (bool_decide (obj_type obj = Comment) || bool_decide (obj_type obj = Review))
     && authenticated_and is_moderator (user request) = true
  ↔ ∃ u, user request = Authenticated u
         ∧ (role u = RoleAdmin
            ∨ (role u = RoleModerator
               ∧ (obj_type obj = Comment ∨ obj_type obj = Review))).
Proof.
  rewrite orb_true_iff, andb_true_iff, orb_true_iff, !bool_decide_eq_true,
    !authenticated_and_spec.
  setoid_rewrite is_admin_spec. setoid_rewrite is_moderator_spec. split.
  - intros [(u & Hu & Hrole)|[Hty (u & Hu & Hrole)]]; exists u; eauto.
  - intros (u & Hu & [Hrole|[Hrole Hty]]); eauto.
Qed.

Lemma has_object_permission_role_rules (request : Request) (obj : Obj) :
  IsAuthorOrReadOnlyPermission.has_object_permission request obj
  = if authenticated_and is_admin (user request)
       || (bool_decide (obj_type obj = Comment) || bool_decide (obj_type obj = Review))
          && authenticated_and is_moderator (user request)
    then Return true
    else match author obj with
         | Return writer =>
             Return (user_eq writer (user request) || is_safe (method request))
         | Raise e => Raise e
         end.
Proof.
  rewrite has_object_permission_branches.
  by destruct (authenticated_and is_admin (user request)).
Qed.

(** X1: the object-level check of [IsAuthorOrReadOnlyPermission] allows a
    request exactly when the principal is an authenticated admin or a
    moderator looking at a Review or a Comment, or else the author of the
    object can be read and the principal is that author or the method is
    safe.  It refuses exactly when no role rule applies, the author can be
    read and is someone else, and the method is unsafe.  It raises exactly
    when no role rule applies and reading the author raises. *)
Theorem has_object_permission_iff (request : Request) (obj : Obj) :
  let by_role :=
    ∃ u, user request = Authenticated u
         ∧ (role u = RoleAdmin
            ∨ (role u = RoleModerator
               ∧ (obj_type obj = Comment ∨ obj_type obj = Review))) in
  (IsAuthorOrReadOnlyPermission.has_object_permission request obj = Return true
   ↔ by_role
     ∨ ∃ writer, author obj = Return writer
                 ∧ (method request ∈ permissions.SAFE_METHODS
                    ∨ ∃ u, user request = Authenticated u
                           ∧ user_pk writer = user_pk u))
  ∧ (IsAuthorOrReadOnlyPermission.has_object_permission request obj = Return false
     ↔ ¬ by_role
       ∧ ∃ writer, author obj = Return writer
                   ∧ (method request ∉ permissions.SAFE_METHODS)
                   ∧ ∀ u, user request = Authenticated u →
                          user_pk writer ≠ user_pk u)
  ∧ (∀ e, IsAuthorOrReadOnlyPermission.has_object_permission request obj = Raise e
          ↔ ¬ by_role ∧ author obj = Raise e).
Proof.
  intros by_role.
  pose proof (role_rules_spec request obj) as Hrole. fold by_role in Hrole.
  rewrite has_object_permission_role_rules.
  destruct (authenticated_and is_admin (user request)
            || (bool_decide (obj_type obj = Comment)
                || bool_decide (obj_type obj = Review))
               && authenticated_and is_moderator (user request)).
  { assert (Hyes : by_role) by (by apply Hrole).
    split_and!.
    - split; [by left | done].
    - split; [discriminate | by intros [Hno _]].
    - intros e. split; [discriminate | by intros [Hno _]]. }
  assert (Hnot : ¬ by_role) by (by intros Hyes%Hrole).
  destruct (author obj) as [writer|e].
  - assert (Hverdict : user_eq writer (user request) || is_safe (method request) = true
                       ↔ method request ∈ permissions.SAFE_METHODS
                         ∨ ∃ u, user request = Authenticated u
                                ∧ user_pk writer = user_pk u).
    { rewrite orb_true_iff, user_eq_spec, is_safe_spec. tauto. }
    destruct (user_eq writer (user request) || is_safe (method request)).
    + split_and!.
      * split; [|done]. intros _. right. exists writer. split; [done|].
        by apply Hverdict.
      * split; [discriminate|]. intros (_ & writer' & [= <-] & Hunsafe & Hother).
        destruct (proj1 Hverdict eq_refl) as [Hsafe|(u & Hu & Hpk)]; [done|].
        by destruct (Hother u Hu).
      * intros e. split; [discriminate | by intros [_ ?]].
    + split_and!.
      * split; [discriminate|].
        intros [?|(writer' & [= <-] & Hok)]; [done|].
        by apply Hverdict in Hok.
      * split; [|done]. intros _. split; [done|].
        exists writer. split_and!; [done| |].
        -- intros Hsafe. apply diff_false_true, Hverdict. by left.
        -- intros u Hu Hpk. apply diff_false_true, Hverdict. right. eauto.
      * intros e. split; [discriminate | by intros [_ ?]].
  - split_and!.
    + split; [discriminate|]. by intros [?|(writer & ? & _)].
    + split; [discriminate|]. by intros (_ & writer & ? & _).
    + intros e'. split.
      * by intros [= ->].
      * by intros [_ [= ->]].
Qed.

(** X2: a request that passes the object-level check of
    [IsAuthorOrReadOnlyPermission] also passes its request-level check: no
    object is ever granted to a request the view would have refused. *)
Theorem object_permission_implies_permission (request : Request) (obj : Obj) :
  IsAuthorOrReadOnlyPermission.has_object_permission request obj = Return true →
  IsAuthorOrReadOnlyPermission.has_permission request = true.
Proof.
  rewrite has_object_permission_branches.
  unfold IsAuthorOrReadOnlyPermission.has_permission.
  destruct (user request) as [|u]; simpl.
  - rewrite andb_false_r, orb_false_r.
    destruct (author obj) as [writer|e]; [|discriminate]. by intros [= ->].
  - intros _. apply orb_true_r.
Qed.

Lemma object_permission_implies_permission_witness :
  IsAuthorOrReadOnlyPermission.has_permission
    (request_of "PATCH" (Authenticated alice)) = true.
Proof.
  apply (object_permission_implies_permission
           (request_of "PATCH" (Authenticated alice)) (mkObj Comment (Return alice))).
  reflexivity.
Defined.

(** X3: [IsAdminPermission] allows exactly the authenticated admins,
    whatever the method, safe ones included; whatever it allows
    [IsAdminOrReadOnly] allows, which allows exactly the safe methods and
    the admins; and whatever that one allows passes the request-level
    check of [IsAuthorOrReadOnlyPermission]. *)
Theorem permission_classes_chain (request : Request) :
  (IsAdminPermission.has_permission request = true
   ↔ ∃ u, user request = Authenticated u ∧ role u = RoleAdmin)
  ∧ (IsAdminOrReadOnly.has_permission request = true
     ↔ method request ∈ permissions.SAFE_METHODS
       ∨ ∃ u, user request = Authenticated u ∧ role u = RoleAdmin)
  ∧ (IsAdminPermission.has_permission request = true →
     IsAdminOrReadOnly.has_permission request = true)
  ∧ (IsAdminOrReadOnly.has_permission request = true →
     IsAuthorOrReadOnlyPermission.has_permission request = true).
Proof.
  assert (Hadmin : IsAdminPermission.has_permission request = true
                   ↔ ∃ u, user request = Authenticated u ∧ role u = RoleAdmin).
  { unfold IsAdminPermission.has_permission. rewrite authenticated_and_spec.
    by setoid_rewrite is_admin_spec. }
  assert (Hread : IsAdminOrReadOnly.has_permission request = true
                  ↔ method request ∈ permissions.SAFE_METHODS
                    ∨ ∃ u, user request = Authenticated u ∧ role u = RoleAdmin).
  { rewrite <- Hadmin, <- is_safe_spec.
    unfold IsAdminOrReadOnly.has_permission, IsAdminPermission.has_permission.
    destruct (is_safe (method request)); split.
    - by left.
    - done.
    - by right.
    - by intros [?|?]. }
  split_and!; [exact Hadmin | exact Hread | |].
  - rewrite Hadmin, Hread. by right.
  - rewrite Hread. unfold IsAuthorOrReadOnlyPermission.has_permission.
    intros [Hsafe%is_safe_spec|(u & Hu & _)].
    + by rewrite Hsafe.
    + rewrite Hu. apply orb_true_r.
Qed.


(** ** The Users view set beyond the ["me"] alias *)

Section users.
Context {VD : Type}.
Context (search : Request → list User → list User).
Context (paginate_queryset : Request → list Principal → option (list Principal)).
Context (get_paginated_response
           : Request → list Principal → list (gmap string string) → Payload).
Context (serializer_data : Principal → gmap string string).
Context (is_valid : Request → gmap string string → M VD).
Context (perform_create : Request → gmap string string → VD → M Principal).
Context (serializer_update : bool → Principal → Request → M Principal).
Context (delete_user : User → M unit).

Abbreviation users_cls :=
  (UserViewSet.cls search paginate_queryset get_paginated_response
                   serializer_data is_valid perform_create serializer_update
                   delete_user).

Lemma users_permissions (request : Request) (kwargs : gmap string string) :
  kwargs !! "username" ≠ Some "me" →
  get_permissions users_cls request kwargs = [IsAdminPermission.cls].
Proof.
  intros Hother. simpl. unfold UserViewSet.get_permissions.
  by rewrite (bool_decide_eq_false_2 _ Hother).
Qed.

Lemma users_get_object (request : Request) (kwargs : gmap string string) (w : World) :
  kwargs !! "username" ≠ Some "me" →
  UserViewSet.get_object search request kwargs w
  = match kwargs !! "username" with
    | Some name =>
        match find (λ u, bool_decide (username u = name))
                   (search request (users w)) with
        | Some row => (Return (Authenticated row), w)
        | None => (Raise Http404, w)
        end
    | None => (Raise AssertionError, w)
    end.
Proof.
  intros Hother. unfold UserViewSet.get_object.
  rewrite (bool_decide_eq_false_2 _ Hother).
  unfold UserViewSet.super_get_object, UserViewSet.filtered_users, lookup_kwarg.
  destruct (kwargs !! "username") as [name|]; [|reflexivity].
  unfold mbind, M_bind, get_world, mret, M_ret, get_object_or_404.
  by destruct (find _ (search request (users w))).
Qed.

Lemma find_by_username (name : string) (table : list User) :
  match find (λ u, bool_decide (username u = name)) table with
  | Some row => row ∈ table ∧ username row = name
  | None => name ∉ username <$> table
  end.
Proof.
  destruct (find _ table) as [row|] eqn:Hfind.
  - apply find_some in Hfind as [Hin Hrow%bool_decide_eq_true].
    by apply list_elem_of_In in Hin.
  - intros (row & Hrow & Hin%list_elem_of_In)%list_elem_of_fmap.
    pose proof (find_none _ _ Hfind row Hin) as Hno. simpl in Hno.
    by apply bool_decide_eq_false in Hno.
Qed.

(** X4: away from the alias ["me"] (on the list of users and on any other
    username) the Users view set lets only authenticated admins through:
    every request of anyone else, whatever the method and the route, is
    refused before any handler runs, and the store stays as it was. *)
Theorem users_admin_only (route : Route) (request : Request)
    (kwargs : gmap string string) (w : World) :
  kwargs !! "username" ≠ Some "me" →
  authenticated_and is_admin (user request) = false →
  serve users_cls route request kwargs w = (Return (refusal request), w).
Proof.
  intros Hother Hadmin.
  by apply (serve_refused _ _ _ _ _ _ (users_permissions request kwargs Hother)).
Qed.

(** X5: for a username other than ["me"], [get_object] looks the user up
    by that username in the queryset the search filter of the request
    leaves: it returns a user of that queryset bearing the name when there
    is one and raises [Http404] when there is none; without a username
    among the URL arguments its assertion fails.  It never touches the
    store. *)
Theorem users_get_object_by_username (request : Request)
    (kwargs : gmap string string) (w : World) :
  kwargs !! "username" ≠ Some "me" →
  (∀ name, kwargs !! "username" = Some name →
     (name ∈ username <$> search request (users w) →
      ∃ row, UserViewSet.get_object search request kwargs w
             = (Return (Authenticated row), w)
             ∧ row ∈ search request (users w) ∧ username row = name)
     ∧ (name ∉ username <$> search request (users w) →
        UserViewSet.get_object search request kwargs w = (Raise Http404, w)))
  ∧ (kwargs !! "username" = None →
     UserViewSet.get_object search request kwargs w = (Raise AssertionError, w)).
Proof.
  intros Hother. rewrite (users_get_object _ _ _ Hother). split.
  - intros name ->.
    pose proof (find_by_username name (search request (users w))) as Hfind.
    destruct (find _ (search request (users w))) as [row|].
    + destruct Hfind as [Hin Hrow]. split.
      * intros _. eauto.
      * intros []. apply list_elem_of_fmap. eauto.
    + split; done.
  - by intros ->.
Qed.

(** X6: a DELETE sent by an authenticated admin to a username other than
    ["me"] hands a user bearing that name, found in the queryset the
    search filter leaves, to [instance.delete()], and is answered 204 when
    the deletion returns; it is answered 404 and changes nothing when the
    queryset holds no such user. *)
Theorem users_destroy_by_admin (request : Request) (kwargs : gmap string string)
    (name : string) (w : World) :
  kwargs !! "username" = Some name →
  name ≠ "me" →
  method request = "DELETE" →
  authenticated_and is_admin (user request) = true →
  (name ∈ username <$> search request (users w) →
   ∃ row, row ∈ search request (users w) ∧ username row = name
          ∧ serve users_cls DetailRoute request kwargs w
            = handle_exception
                (delete_user row;;
                 mret (mkResponse NoData status.HTTP_204_NO_CONTENT)) w)
  ∧ (name ∉ username <$> search request (users w) →
     serve users_cls DetailRoute request kwargs w
     = (Return (mkResponse NoData status.HTTP_404_NOT_FOUND), w)).
Proof.
  intros Hname Hother Hdelete Hadmin.
  assert (Hnot_me : kwargs !! "username" ≠ Some "me").
  { rewrite Hname. congruence. }
  pose proof (users_permissions request kwargs Hnot_me) as Hperms.
  rewrite (serve_admitted _ _ _ _ _ _ Hperms Hadmin), Hdelete. simpl.
  unfold ModelViewSet_destroy.
  pose proof (users_get_object request kwargs w Hnot_me) as Hget.
  rewrite Hname in Hget.
  pose proof (find_by_username name (search request (users w))) as Hfind.
  destruct (find _ (search request (users w))) as [row|].
  - destruct Hfind as [Hin Hrow]. split.
    + intros _. exists row. split_and!; [done..|].
      unfold handle_exception.
      rewrite (bind_return _ _ _ _ _ Hget). reflexivity.
    + intros []. apply list_elem_of_fmap. eauto.
  - split; [done|]. intros _.
    apply (handle_exception_raise _ _ _ Http404). by apply bind_raise.
Qed.
End users.

Lemma users_admin_only_witness :
  serve users_viewset ListRoute (request_of "GET" (Authenticated carol)) ∅ shelf
  = (Return (mkResponse NoData status.HTTP_403_FORBIDDEN), shelf).
Proof.
  apply (users_admin_only (VD:=unit) unfiltered unpaginated no_page render_user
           (λ _ _, mthrow ValidationError) (λ _ _ _, mthrow ValidationError)
           (λ _ instance _, mret instance) drop_user
           ListRoute (request_of "GET" (Authenticated carol)) ∅ shelf).
  - by rewrite lookup_empty.
  - reflexivity.
Defined.

Lemma users_get_object_by_username_witness :
  (∃ row, UserViewSet.get_object unfiltered (request_of "GET" (Authenticated root))
                                 {[ "username" := "bob" ]} shelf
          = (Return (Authenticated row), shelf)
          ∧ row ∈ users shelf ∧ username row = "bob")
  ∧ UserViewSet.get_object unfiltered (request_of "GET" (Authenticated root))
                           {[ "username" := "zed" ]} shelf
    = (Raise Http404, shelf)
  ∧ UserViewSet.get_object unfiltered (request_of "GET" (Authenticated root)) ∅ shelf
    = (Raise AssertionError, shelf).
Proof.
  split_and!.
  - apply (proj1 (users_get_object_by_username unfiltered
                    (request_of "GET" (Authenticated root))
                    {[ "username" := "bob" ]} shelf ltac:(by apply (bool_decide_unpack _))) "bob");
      [reflexivity|].
    apply (bool_decide_unpack _). vm_compute. exact I.
  - apply (proj1 (users_get_object_by_username unfiltered
                    (request_of "GET" (Authenticated root))
                    {[ "username" := "zed" ]} shelf ltac:(by apply (bool_decide_unpack _))) "zed");
      [reflexivity|].
    apply (bool_decide_unpack _). vm_compute. exact I.
  - apply (proj2 (users_get_object_by_username unfiltered
                    (request_of "GET" (Authenticated root)) ∅ shelf ltac:(by apply (bool_decide_unpack _)))).
    reflexivity.
Defined.

Lemma users_destroy_by_admin_witness :
  (∃ row, row ∈ users shelf ∧ username row = "bob"
          ∧ serve users_viewset DetailRoute (request_of "DELETE" (Authenticated root))
                  {[ "username" := "bob" ]} shelf
            = handle_exception
                (drop_user row;; mret (mkResponse NoData status.HTTP_204_NO_CONTENT))
                shelf)
  ∧ serve users_viewset DetailRoute (request_of "DELETE" (Authenticated root))
          {[ "username" := "zed" ]} shelf
    = (Return (mkResponse NoData status.HTTP_404_NOT_FOUND), shelf).
Proof.
  split.
  - apply (users_destroy_by_admin (VD:=unit) unfiltered unpaginated no_page
             render_user
             (λ _ _, mthrow ValidationError) (λ _ _ _, mthrow ValidationError)
             (λ _ instance _, mret instance) drop_user
             (request_of "DELETE" (Authenticated root))
             {[ "username" := "bob" ]} "bob" shelf);
      [reflexivity | done | reflexivity | reflexivity |].
    apply (bool_decide_unpack _). vm_compute. exact I.
  - apply (users_destroy_by_admin (VD:=unit) unfiltered unpaginated no_page
             render_user
             (λ _ _, mthrow ValidationError) (λ _ _ _, mthrow ValidationError)
             (λ _ instance _, mret instance) drop_user
             (request_of "DELETE" (Authenticated root))
             {[ "username" := "zed" ]} "zed" shelf);
      [reflexivity | done | reflexivity | reflexivity |].
    apply (bool_decide_unpack _). vm_compute. exact I.
Defined.

(** The same request on [shelf], with a deletion that takes the row only. *)
Example users_destroy_bob :
  serve users_viewset DetailRoute (request_of "DELETE" (Authenticated root))
        {[ "username" := "bob" ]} shelf
  = (Return (mkResponse NoData status.HTTP_204_NO_CONTENT),
     set_users (filter (λ other, user_pk other ≠ user_pk bob)) shelf).
Proof. reflexivity. Qed.

(** ** Categories and Genres: who reaches which action *)

(** X7: on the Categories and Genres view sets a request with an unsafe
    method sent by anyone but an authenticated admin is refused on every
    route before any handler runs, and the store stays as it was; a GET on
    the list reaches the inherited [list] action for every principal, and
    an admin's POST on the list and DELETE on an item reach the inherited
    [create] and [destroy] actions. *)
Theorem categories_write_admin_only {K} (super self : ViewSet K) (route : Route)
    (request : Request) (kwargs : K) (w : World) :
  self = CategoriesViewSet.cls super ∨ self = GenresViewSet.cls super →
  (method request ∉ permissions.SAFE_METHODS →
   authenticated_and is_admin (user request) = false →
   serve self route request kwargs w = (Return (refusal request), w))
  ∧ (method request = "GET" →
     serve self ListRoute request kwargs w
     = handle_exception (list_ super request kwargs) w)
  ∧ (authenticated_and is_admin (user request) = true →
     (method request = "POST" →
      serve self ListRoute request kwargs w
      = handle_exception (create super request kwargs) w)
     ∧ (method request = "DELETE" →
        serve self DetailRoute request kwargs w
        = handle_exception (destroy super request kwargs) w)).
Proof.
  intros Hself.
  assert (self = CategoriesViewSet.cls super) as ->.
  { by destruct Hself as [->| ->]. }
  assert (Hadmitted : ∀ route',
            IsAdminOrReadOnly.has_permission request = true →
            serve (CategoriesViewSet.cls super) route' request kwargs w
            = handle_exception
                (handler_for (CategoriesViewSet.cls super) route' (method request)
                             request kwargs) w).
  { intros route' Hok.
    by apply (serve_admitted _ _ _ _ _ IsAdminOrReadOnly.cls). }
  split_and!.
  - intros Hunsafe Hadmin.
    apply (serve_refused _ _ _ _ _ IsAdminOrReadOnly.cls); [reflexivity|].
    simpl. unfold IsAdminOrReadOnly.has_permission. rewrite Hadmin.
    destruct (is_safe (method request)) eqn:Hsafe; [|done].
    by apply is_safe_spec in Hsafe.
  - intros Hget. rewrite Hadmitted.
    + by rewrite Hget.
    + unfold IsAdminOrReadOnly.has_permission. by rewrite Hget.
  - intros Hadmin.
    assert (Hok : IsAdminOrReadOnly.has_permission request = true).
    { unfold IsAdminOrReadOnly.has_permission. rewrite Hadmin.
      by destruct (is_safe (method request)). }
    split; intros Hmethod; rewrite (Hadmitted _ Hok), Hmethod; reflexivity.
Qed.

Lemma categories_write_admin_only_witness :
  serve (CategoriesViewSet.cls bare_viewset) ListRoute
        (request_of "POST" (Authenticated carol)) ∅ offline
  = (Return (mkResponse NoData status.HTTP_403_FORBIDDEN), offline)
  ∧ serve (GenresViewSet.cls bare_viewset) DetailRoute
          (request_of "DELETE" AnonymousUser) {[ "slug" := "jazz" ]} offline
    = (Return (mkResponse NoData status.HTTP_401_UNAUTHORIZED), offline).
Proof.
  split.
  - apply (categories_write_admin_only bare_viewset
             (CategoriesViewSet.cls bare_viewset) ListRoute
             (request_of "POST" (Authenticated carol)) ∅ offline
             (or_introl eq_refl)); [|reflexivity].
    by apply (bool_decide_unpack _).
  - apply (categories_write_admin_only bare_viewset
             (GenresViewSet.cls bare_viewset) DetailRoute
             (request_of "DELETE" AnonymousUser) {[ "slug" := "jazz" ]} offline
             (or_intror eq_refl)); [|reflexivity].
    by apply (bool_decide_unpack _).
Defined.

(** ** The Titles queryset: order *)

#[local] Instance newer_first_total : Total TitleViewSet.newer_first.
Proof. intros a b. unfold TitleViewSet.newer_first. lia. Qed.

#[local] Instance newer_first_trans : Transitive TitleViewSet.newer_first.
Proof. intros a b c. unfold TitleViewSet.newer_first. lia. Qed.

(** X8: the Titles queryset comes out newest first: every row is at least
    as recent as each row after it, and reading the queryset leaves the
    store as it was. *)
Theorem queryset_newest_first (w : World) :
  ∃ rows,
    TitleViewSet.queryset w = (Return rows, w)
    ∧ StronglySorted (λ a b, (pub_date (fst b) ≤ pub_date (fst a))%Z) rows.
Proof.
  eexists. split; [reflexivity|].
  apply (StronglySorted_merge_sort TitleViewSet.newer_first).
Qed.
(** ** Reviews: listing, and listing after creating *)

Lemma get_queryset_of_title (kwargs : gmap string Z) (w : World) (t : TitleRow) :
  ReviewViewSet.get_title kwargs w = (Return t, w) →
  ReviewViewSet.get_queryset kwargs w
  = (Return (filter (λ r, review_title r = title_pk t) (reviews w)), w).
Proof.
  intros Hget. unfold ReviewViewSet.get_queryset.
  rewrite (bind_return _ _ _ _ _ Hget). reflexivity.
Qed.

(** What a successful [perform_create] has done: it found the Title of the
    URL, took the requesting user as author and the text and score of the
    validated body, and appended that one row. *)
Lemma perform_create_stored (request : Request) (kwargs : gmap string Z)
    (validated_data : gmap string Value) (w w' : World) (row : ReviewRow) :
  ReviewViewSet.perform_create request kwargs validated_data w = (Return row, w') →
  ∃ t u,
    ReviewViewSet.get_title kwargs w = (Return t, w)
    ∧ user request = Authenticated u
    ∧ review_title row = title_pk t
    ∧ review_author row = user_pk u
    ∧ validated_data !! "text" = Some (VStr (text row))
    ∧ validated_data !! "score" = Some (VInt (score row))
    ∧ w' = set_reviews (.++ [row]) w.
Proof.
  unfold ReviewViewSet.perform_create.
  destruct (ReviewViewSet.get_title kwargs w) as [[t|e] w0] eqn:Hget.
  - rewrite (bind_return _ _ _ _ _ Hget).
    assert (w0 = w) as ->.
    { unfold ReviewViewSet.get_title, get_object_or_404 in Hget.
      destruct (find _ (titles w)); by injection Hget. }
    unfold ReviewViewSet.serializer_save, ReviewViewSet.Review_objects_create.
    destruct (save_fields validated_data (user request) t) as (-> & -> & -> & ->).
    destruct (user request) as [|u]; [discriminate|].
    destruct (validated_data !! "text") as [[body| | |]|]; try discriminate.
    destruct (validated_data !! "score") as [[|n| |]|]; try discriminate.
    case_bool_decide; [discriminate|].
    intros [= <- <-]. exists t, u. by split_and!.
  - rewrite (bind_raise _ _ _ _ _ Hget). discriminate.
Qed.

Lemma get_title_after_create (kwargs : gmap string Z) (w : World) (t : TitleRow)
    (f : list ReviewRow → list ReviewRow) :
  ReviewViewSet.get_title kwargs w = (Return t, w) →
  ReviewViewSet.get_title kwargs (set_reviews f w) = (Return t, set_reviews f w).
Proof.
  unfold ReviewViewSet.get_title, get_object_or_404. simpl.
  destruct (find _ (titles w)); [|discriminate]. by intros [= ->].
Qed.

(** X10: the Reviews queryset is scoped to the Title of the URL: it raises
    [Http404] when [title_id] names no Title, and otherwise holds exactly
    the stored reviews of that Title, none of another one; in both cases
    the store is left as it was. *)
Theorem reviews_queryset_scoped (kwargs : gmap string Z) (w : World) :
  ((∀ t, t ∈ titles w → kwargs !! "title_id" ≠ Some (title_pk t)) →
   ReviewViewSet.get_queryset kwargs w = (Raise Http404, w))
  ∧ (∀ title_id,
       kwargs !! "title_id" = Some title_id →
       (∃ t, t ∈ titles w ∧ title_pk t = title_id) →
       ∃ rows, ReviewViewSet.get_queryset kwargs w = (Return rows, w)
               ∧ ∀ r, r ∈ rows ↔ r ∈ reviews w ∧ review_title r = title_id).
Proof.
  split.
  - intros Hmissing. unfold ReviewViewSet.get_queryset.
    apply bind_raise. by apply get_title_missing.
  - intros title_id Hkw Hexists.
    destruct (get_title_found _ _ _ Hkw Hexists) as (t & Hget & _ & Hpk).
    eexists. split; [by apply get_queryset_of_title|].
    intros r. rewrite list_elem_of_filter, Hpk. tauto.
Qed.

Lemma reviews_queryset_scoped_witness :
  ReviewViewSet.get_queryset {[ "title_id" := 9 ]} shelf = (Raise Http404, shelf)
  ∧ ∃ rows, ReviewViewSet.get_queryset {[ "title_id" := 1 ]} shelf = (Return rows, shelf)
            ∧ ∀ r, r ∈ rows ↔ r ∈ reviews shelf ∧ review_title r = 1.
Proof.
  split.
  - apply (proj1 (reviews_queryset_scoped {[ "title_id" := 9 ]} shelf)).
    intros t Hin.
    repeat (apply elem_of_cons in Hin as [-> | Hin]); [done | done |].
    by apply elem_of_nil in Hin.
  - apply (proj2 (reviews_queryset_scoped {[ "title_id" := 1 ]} shelf) 1);
      [reflexivity|].
    exists dune. split; [apply list_elem_of_here | reflexivity].
Defined.

(** X11: a Review that [perform_create] has stored shows up in the Reviews
    queryset of the same URL: the list read after the creation is the list
    read before it with the new row at the end. *)
Theorem review_create_then_list (request : Request) (kwargs : gmap string Z)
    (validated_data : gmap string Value) (w w' : World) (row : ReviewRow)
    (rows : list ReviewRow) :
  ReviewViewSet.perform_create request kwargs validated_data w = (Return row, w') →
  ReviewViewSet.get_queryset kwargs w = (Return rows, w) →
  ReviewViewSet.get_queryset kwargs w' = (Return (rows ++ [row])%list, w').
Proof.
  intros (t & u & Hget & _ & Htitle & _ & _ & _ & ->)%perform_create_stored Hbefore.
  rewrite (get_queryset_of_title _ _ _ Hget) in Hbefore. injection Hbefore as <-.
  rewrite (get_queryset_of_title _ _ t) by by apply get_title_after_create.
  simpl. rewrite filter_app, filter_cons_True by done. reflexivity.
Qed.

(** X12: storing a Review changes the rating of its Title only: the scores
    averaged for that Title gain the score of the validated body, those
    of every other Title stay what they were, and no Title is added or
    removed. *)
Theorem review_create_then_rating (request : Request) (kwargs : gmap string Z)
    (validated_data : gmap string Value) (w w' : World) (row : ReviewRow) :
  ReviewViewSet.perform_create request kwargs validated_data w = (Return row, w') →
  titles w' = titles w
  ∧ validated_data !! "score" = Some (VInt (score row))
  ∧ ∀ title,
      (title_pk title = review_title row →
       TitleViewSet.reviews__score w' title
       = (TitleViewSet.reviews__score w title ++ [score row])%list)
      ∧ (title_pk title ≠ review_title row →
         TitleViewSet.Avg (TitleViewSet.reviews__score w' title)
         = TitleViewSet.Avg (TitleViewSet.reviews__score w title)).
Proof.
  intros (t & u & _ & _ & _ & _ & _ & Hscore & ->)%perform_create_stored.
  split_and!; [reflexivity | exact Hscore |].
  intros title. unfold TitleViewSet.reviews__score. simpl.
  rewrite filter_app, fmap_app. split; intros Htitle.
  - by rewrite filter_cons_True.
  - rewrite filter_cons_False by done. by rewrite filter_nil, app_nil_r.
Qed.

Lemma review_create_then_list_witness :
  ReviewViewSet.get_queryset {[ "title_id" := 2 ]}
                             (set_reviews (.++ [mkReview 4 2 2 "fair" 5]) shelf)
  = (Return [mkReview 2 2 1 "fine" 3; mkReview 4 2 2 "fair" 5],
     set_reviews (.++ [mkReview 4 2 2 "fair" 5]) shelf).
Proof.
  apply (review_create_then_list (request_of "POST" (Authenticated root))
           {[ "title_id" := 2 ]} spoofed_body shelf
           (set_reviews (.++ [mkReview 4 2 2 "fair" 5]) shelf)
           (mkReview 4 2 2 "fair" 5) [mkReview 2 2 1 "fine" 3]);
    reflexivity.
Defined.

Lemma review_create_then_rating_witness :
  TitleViewSet.reviews__score (set_reviews (.++ [mkReview 4 2 2 "fair" 5]) shelf) solaris
  = [3; 5]
  ∧ TitleViewSet.Avg
      (TitleViewSet.reviews__score (set_reviews (.++ [mkReview 4 2 2 "fair" 5]) shelf) dune)
    = TitleViewSet.Avg (TitleViewSet.reviews__score shelf dune).
Proof.
  destruct (review_create_then_rating (request_of "POST" (Authenticated root))
              {[ "title_id" := 2 ]} spoofed_body shelf
              (set_reviews (.++ [mkReview 4 2 2 "fair" 5]) shelf)
              (mkReview 4 2 2 "fair" 5)) as (_ & _ & Hscores); [reflexivity|].
  split.
  - by apply (Hscores solaris).
  - by apply (Hscores dune).
Defined.

(** ** Registration: what reaches the mail channel *)

Section Registration_mail.
Context (ADMIN_EMAIL : string).
Context (uuid4_hex : nat → string).
Context (malformed : string → string → bool).

Abbreviation register := (RegistrationView.post ADMIN_EMAIL uuid4_hex malformed).

(** X13: with valid, non-duplicate input and the mail channel up, Register
    answers 200 with the validated data, stores one user with the given
    name and address and one confirmation code owned by that user, and
    hands the channel one message: from [ADMIN_EMAIL], to the address just
    registered, carrying the very code that was stored. *)
Theorem register_sends_stored_code (request : Request) (w : World)
    (uname mail : string) :
  data request !! "username" = Some uname →
  data request !! "email" = Some mail →
  malformed uname mail = false →
  uname ∉ username <$> users w →
  mail ∉ email <$> users w →
  mail_up w = true →
  ∃ w' account code_row sent,
    register request w
    = (Return (mkResponse (DictData {[ "username" := uname; "email" := mail ]})
                          status.HTTP_200_OK), w')
    ∧ users w' = (users w ++ [account])%list
    ∧ username account = uname ∧ email account = mail
    ∧ confirmation_codes w' = (confirmation_codes w ++ [code_row])%list
    ∧ code_user code_row = user_pk account
    ∧ outbox w' = (outbox w ++ [sent])%list
    ∧ sent = mkMail "Your confirmation code" (code code_row) ADMIN_EMAIL [mail].
Proof.
  intros Hname Hmail Hwell Hfresh Hfresh' Hup.
  rewrite (register_mail_up _ _ _ _ _ _ _ Hname Hmail Hwell Hfresh Hfresh' Hup).
  do 4 eexists. split_and!; reflexivity.
Qed.

(** X14: whatever the input, Register answers only once the code has been
    handed to the mail channel: an answer is a 200 and comes with exactly
    one new message, whose body is a stored confirmation code; a call that
    raises has sent nothing. *)
Theorem register_answers_after_mail (request : Request) (w w' : World)
    (outcome : Outcome Response) :
  register request w = (outcome, w') →
  match outcome with
  | Return r =>
      status_code r = status.HTTP_200_OK
      ∧ ∃ sent code_row,
          outbox w' = (outbox w ++ [sent])%list
          ∧ code_row ∈ confirmation_codes w'
          ∧ message sent = code code_row
  | Raise _ => outbox w' = outbox w
  end.
Proof.
  unfold RegistrationView.post, RegistrationView.RegistrationSerializer_is_valid,
    RegistrationView.User_save, RegistrationView.uuid4,
    RegistrationView.ConfirmationCode_save, send_mail, getitem,
    mbind, M_bind, mret, M_ret, mthrow, M_throw.
  intros Hrun.
  repeat (case_match; simplify_eq/=); try reflexivity.
  split; [reflexivity|].
  eexists _, (mkConfirmationCode _ _ _). split_and!; [reflexivity| |reflexivity].
  apply elem_of_app. right. apply list_elem_of_here.
Qed.
End Registration_mail.

Lemma register_sends_stored_code_witness :
  ∃ w' account code_row sent,
    RegistrationView.post "admin@yamdb.fake" (λ _, "c0ffee") (λ _ _, false)
                          (signup "dave" "dave@example.com") shelf
    = (Return (mkResponse (DictData {[ "username" := "dave";
                                       "email" := "dave@example.com" ]})
                          status.HTTP_200_OK), w')
    ∧ users w' = (users shelf ++ [account])%list
    ∧ username account = "dave" ∧ email account = "dave@example.com"
    ∧ confirmation_codes w' = (confirmation_codes shelf ++ [code_row])%list
    ∧ code_user code_row = user_pk account
    ∧ outbox w' = (outbox shelf ++ [sent])%list
    ∧ sent = mkMail "Your confirmation code" (code code_row) "admin@yamdb.fake"
                    ["dave@example.com"].
Proof.
  apply (register_sends_stored_code "admin@yamdb.fake" (λ _, "c0ffee") (λ _ _, false)
           (signup "dave" "dave@example.com") shelf "dave" "dave@example.com").
  - reflexivity.
  - reflexivity.
  - reflexivity.
  - apply (bool_decide_unpack _). vm_compute. exact I.
  - apply (bool_decide_unpack _). vm_compute. exact I.
  - reflexivity.
Defined.

Lemma register_answers_after_mail_witness :
  outbox offline_after_signup = outbox offline.
Proof.
  apply (register_answers_after_mail "admin@yamdb.fake" (λ _, "c0ffee") (λ _ _, false)
           (signup "dave" "dave@example.com") offline offline_after_signup
           (Raise SMTPException)).
  reflexivity.
Defined.

(** ** Comments *)

Lemma ms_bind_raise {A B} (c : MS A) (k : A → MS B) (s s' : Site) (e : Exception) :
  c s = (Raise e, s') → (c ≫= k) s = (Raise e, s').
Proof. intros Hc. unfold mbind, MS_bind. by rewrite Hc. Qed.

Lemma ms_bind_return {A B} (c : MS A) (k : A → MS B) (s s' : Site) (a : A) :
  c s = (Return a, s') → (c ≫= k) s = k a s'.
Proof. intros Hc. unfold mbind, MS_bind. by rewrite Hc. Qed.

Lemma get_review_find (kwargs : gmap string Z) (s : Site) :
  CommentViewSet.get_review kwargs s
  = match find (λ r, bool_decide (Some (review_pk r) = kwargs !! "review_id"))
               (reviews (world s)) with
    | Some r => (Return r, s)
    | None => (Raise Http404, s)
    end.
Proof.
  destruct s as [w cs]. unfold CommentViewSet.get_review, lift, get_object_or_404.
  simpl. by destruct (find _ (reviews w)).
Qed.

Lemma get_review_missing (kwargs : gmap string Z) (s : Site) :
  (∀ r, r ∈ reviews (world s) → kwargs !! "review_id" ≠ Some (review_pk r)) →
  CommentViewSet.get_review kwargs s = (Raise Http404, s).
Proof.
  intros Hmissing. rewrite get_review_find.
  destruct (find _ (reviews (world s))) as [r|] eqn:Hfind; [|reflexivity].
  apply find_some in Hfind as [Hin Hpk%bool_decide_eq_true].
  exfalso. apply (Hmissing r); [by apply list_elem_of_In | done].
Qed.

Lemma get_review_found (kwargs : gmap string Z) (s : Site) (review_id : Z) :
  kwargs !! "review_id" = Some review_id →
  (∃ r, r ∈ reviews (world s) ∧ review_pk r = review_id) →
  ∃ r, CommentViewSet.get_review kwargs s = (Return r, s)
       ∧ r ∈ reviews (world s) ∧ review_pk r = review_id.
Proof.
  intros Hkw (r & Hin & Hpk). rewrite get_review_find, Hkw.
  destruct (find _ (reviews (world s))) as [r'|] eqn:Hfind.
  - apply find_some in Hfind as [Hin' Hpk'%bool_decide_eq_true].
    injection Hpk' as Hpk'.
    exists r'. split_and!; [reflexivity | by apply list_elem_of_In | done].
  - exfalso. apply list_elem_of_In in Hin.
    pose proof (find_none _ _ Hfind r Hin) as Hno. simpl in Hno.
    apply bool_decide_eq_false in Hno. apply Hno. by rewrite Hpk.
Qed.

(** X15: the Comments queryset is scoped to the Review of the URL and to
    nothing else: it raises [Http404] when [review_id] names no Review,
    otherwise it holds exactly the stored comments of that Review, and the
    [title_id] of the URL plays no part in either answer. *)
Theorem comments_queryset_scoped (kwargs : gmap string Z) (s : Site) :
  ((∀ r, r ∈ reviews (world s) → kwargs !! "review_id" ≠ Some (review_pk r)) →
   CommentViewSet.get_queryset kwargs s = (Raise Http404, s))
  ∧ (∀ review_id,
       kwargs !! "review_id" = Some review_id →
       (∃ r, r ∈ reviews (world s) ∧ review_pk r = review_id) →
       ∃ rows, CommentViewSet.get_queryset kwargs s = (Return rows, s)
               ∧ ∀ c, c ∈ rows ↔ c ∈ comments s ∧ comment_review c = review_id)
  ∧ (∀ title_id : Z,
       CommentViewSet.get_queryset (<[ "title_id" := title_id ]> kwargs) s
       = CommentViewSet.get_queryset kwargs s).
Proof.
  split_and!.
  - intros Hmissing. unfold CommentViewSet.get_queryset.
    apply ms_bind_raise. by apply get_review_missing.
  - intros review_id Hkw Hexists.
    destruct (get_review_found _ _ _ Hkw Hexists) as (r & Hget & _ & Hpk).
    unfold CommentViewSet.get_queryset.
    rewrite (ms_bind_return _ _ _ _ _ Hget).
    eexists. split; [reflexivity|].
    intros c. rewrite list_elem_of_filter, Hpk. tauto.
  - intros title_id. unfold CommentViewSet.get_queryset, CommentViewSet.get_review.
    by rewrite lookup_insert_ne.
Qed.

Lemma comments_queryset_scoped_witness :
  CommentViewSet.get_queryset {[ "title_id" := 1; "review_id" := 9 ]} forum
  = (Raise Http404, forum)
  ∧ ∃ rows, CommentViewSet.get_queryset {[ "title_id" := 2; "review_id" := 1 ]} forum
            = (Return rows, forum)
            ∧ ∀ c, c ∈ rows ↔ c ∈ comments forum ∧ comment_review c = 1.
Proof.
  split.
  - apply (proj1 (comments_queryset_scoped {[ "title_id" := 1; "review_id" := 9 ]} forum)).
    intros r Hin.
    repeat (apply elem_of_cons in Hin as [-> | Hin]); [done | done | done |].
    by apply elem_of_nil in Hin.
  - apply (proj1 (proj2 (comments_queryset_scoped
                           {[ "title_id" := 2; "review_id" := 1 ]} forum)) 1);
      [reflexivity|].
    exists (mkReview 1 1 1 "slow" 7). split; [apply list_elem_of_here | reflexivity].
Defined.

(** The keyword arguments of the Comment serializer's [save] win over the
    validated body on the keys they name. *)
Lemma comment_save_fields (validated_data : gmap string CommentValue)
    (p : Principal) (r : ReviewRow) :
  let fields :=
    ({[ "author" := CUser p; "review" := CReview r ]} : gmap string CommentValue)
    ∪ validated_data in
  fields !! "author" = Some (CUser p)
  ∧ fields !! "review" = Some (CReview r)
  ∧ fields !! "text" = validated_data !! "text".
Proof.
  simpl. split_and!.
  - by apply lookup_union_Some_l.
  - by apply lookup_union_Some_l.
  - by apply lookup_union_r.
Qed.

(** X16: creating a Comment under a [review_id] that names no Review
    raises [Http404] and stores nothing; every Comment [perform_create]
    stores is one new row, written by the requesting user on the Review of
    the URL with the text of the validated body, whatever that body says
    about author or review, and nothing else in the store changes. *)
Theorem comment_perform_create (request : Request) (kwargs : gmap string Z)
    (validated_data : gmap string CommentValue) (s : Site) :
  ((∀ r, r ∈ reviews (world s) → kwargs !! "review_id" ≠ Some (review_pk r)) →
   CommentViewSet.perform_create request kwargs validated_data s = (Raise Http404, s))
  ∧ (∀ (review_id : Z) (u : User) (body : string),
       kwargs !! "review_id" = Some review_id →
       (∃ r, r ∈ reviews (world s) ∧ review_pk r = review_id) →
       user request = Authenticated u →
       validated_data !! "text" = Some (CStr body) →
       CommentViewSet.perform_create request kwargs validated_data s
       = (Return (mkComment (next_pk comment_pk (comments s))
                            review_id (user_pk u) body),
          mkSite (world s)
                 (comments s ++ [mkComment (next_pk comment_pk (comments s))
                                           review_id (user_pk u) body])))
  ∧ (∀ (row : CommentRow) (s' : Site),
       CommentViewSet.perform_create request kwargs validated_data s = (Return row, s') →
       (∃ u, user request = Authenticated u ∧ comment_author row = user_pk u)
       ∧ kwargs !! "review_id" = Some (comment_review row)
       ∧ (∃ r, r ∈ reviews (world s) ∧ review_pk r = comment_review row)
       ∧ validated_data !! "text" = Some (CStr (comment_text row))
       ∧ s' = mkSite (world s) (comments s ++ [row])).
Proof.
  split_and!.
  - intros Hmissing. unfold CommentViewSet.perform_create.
    apply ms_bind_raise. by apply get_review_missing.
  - intros review_id u body Hkw Hexists Huser Htext.
    destruct (get_review_found _ _ _ Hkw Hexists) as (r & Hget & _ & Hpk).
    unfold CommentViewSet.perform_create.
    rewrite (ms_bind_return _ _ _ _ _ Hget).
    unfold CommentViewSet.serializer_save, CommentViewSet.Comment_objects_create.
    rewrite Huser.
    destruct (comment_save_fields validated_data (Authenticated u) r) as (-> & -> & ->).
    by rewrite Htext, Hpk.
  - intros row s'. unfold CommentViewSet.perform_create.
    pose proof (get_review_find kwargs s) as Hget.
    destruct (find _ (reviews (world s))) as [r|] eqn:Hfind.
    + rewrite (ms_bind_return _ _ _ _ _ Hget).
      apply find_some in Hfind as [Hin Hpk%bool_decide_eq_true].
      unfold CommentViewSet.serializer_save, CommentViewSet.Comment_objects_create.
      destruct (comment_save_fields validated_data (user request) r) as (-> & -> & ->).
      destruct (user request) as [|u]; [discriminate|].
      destruct (validated_data !! "text") as [[body| |]|]; try discriminate.
      intros [= <- <-]. simpl. split_and!; eauto.
      exists r. split; [by apply list_elem_of_In | reflexivity].
    + rewrite (ms_bind_raise _ _ _ _ _ Hget). discriminate.
Qed.

Lemma comment_perform_create_witness :
  CommentViewSet.perform_create (request_of "POST" (Authenticated bob))
                                {[ "title_id" := 1; "review_id" := 9 ]}
                                spoofed_comment forum
  = (Raise Http404, forum)
  ∧ CommentViewSet.perform_create (request_of "POST" (Authenticated bob))
                                  {[ "title_id" := 1; "review_id" := 1 ]}
                                  spoofed_comment forum
    = (Return (mkComment 4 1 4 "me too"),
       mkSite shelf (comments forum ++ [mkComment 4 1 4 "me too"])).
Proof.
  split.
  - apply (proj1 (comment_perform_create (request_of "POST" (Authenticated bob))
                    {[ "title_id" := 1; "review_id" := 9 ]} spoofed_comment forum)).
    intros r Hin.
    repeat (apply elem_of_cons in Hin as [-> | Hin]); [done | done | done |].
    by apply elem_of_nil in Hin.
  - apply (proj1 (proj2 (comment_perform_create
                           (request_of "POST" (Authenticated bob))
                           {[ "title_id" := 1; "review_id" := 1 ]}
                           spoofed_comment forum))
             1 bob "me too"); [reflexivity | | reflexivity | reflexivity].
    exists (mkReview 1 1 1 "slow" 7). split; [apply list_elem_of_here | reflexivity].
Defined.

(** ** Reviews: who may change one *)

Section review_authority.
Context (backends : Request → list ReviewRow → list ReviewRow).
Context (paginate_queryset : Request → list ReviewRow → option (list ReviewRow)).
Context (get_paginated_response
           : Request → list ReviewRow → list (gmap string string) → Payload).
Context (serializer_data : ReviewRow → gmap string string).
Context (validate : Request → World → Outcome (gmap string Value)).
Context (serializer_update : bool → ReviewRow → Request → M ReviewRow).
Context (delete_review : ReviewRow → M unit).

Abbreviation reviews_cls :=
  (ReviewViewSet.cls backends paginate_queryset get_paginated_response
                     serializer_data validate serializer_update delete_review).

Lemma filtered_queryset_of_title (request : Request) (kwargs : gmap string Z)
    (w : World) (t : TitleRow) :
  ReviewViewSet.get_title kwargs w = (Return t, w) →
  ReviewViewSet.filtered_queryset backends request kwargs w
  = (Return (backends request (filter (λ r, review_title r = title_pk t) (reviews w))),
     w).
Proof.
  intros Hget. unfold ReviewViewSet.filtered_queryset.
  by rewrite (bind_return _ _ _ _ _ (get_queryset_of_title _ _ _ Hget)).
Qed.

Lemma filtered_queryset_missing (request : Request) (kwargs : gmap string Z)
    (w : World) :
  (∀ t, t ∈ titles w → kwargs !! "title_id" ≠ Some (title_pk t)) →
  ReviewViewSet.filtered_queryset backends request kwargs w = (Raise Http404, w).
Proof.
  intros Hmissing. unfold ReviewViewSet.filtered_queryset, ReviewViewSet.get_queryset.
  apply bind_raise, bind_raise. by apply get_title_missing.
Qed.

(** [get_object] once the Title is found: the lookup key, the row, and the
    object-level check on it. *)
Lemma get_object_of_title (request : Request) (kwargs : gmap string Z) (w : World)
    (t : TitleRow) :
  ReviewViewSet.get_title kwargs w = (Return t, w) →
  ReviewViewSet.get_object backends request kwargs w
  = match kwargs !! "pk" with
    | None => (Raise AssertionError, w)
    | Some pk =>
        match find (λ r, bool_decide (review_pk r = pk))
                   (backends request
                      (filter (λ r, review_title r = title_pk t) (reviews w))) with
        | None => (Raise Http404, w)
        | Some row =>
            match IsAuthorOrReadOnlyPermission.has_object_permission
                    request (ReviewViewSet.as_obj w row) with
            | Return true => (Return row, w)
            | Return false => permission_denied request w
            | Raise e => (Raise e, w)
            end
        end
    end.
Proof.
  intros Hget. unfold ReviewViewSet.get_object.
  rewrite (bind_return _ _ _ _ _ (filtered_queryset_of_title request _ _ _ Hget)).
  unfold lookup_kwarg. destruct (kwargs !! "pk") as [pk|]; [|reflexivity].
  rewrite (bind_return _ _ w w pk) by reflexivity.
  unfold get_object_or_404 at 1.
  destruct (find _ (backends request _)) as [row|]; [|reflexivity].
  rewrite (bind_return _ _ w w row) by reflexivity.
  rewrite (bind_return _ _ w w w) by reflexivity.
  simpl.
  destruct (IsAuthorOrReadOnlyPermission.has_object_permission
              request (ReviewViewSet.as_obj w row)) as [[|]|e]; try reflexivity.
  unfold permission_denied. by destruct (is_authenticated (user request)).
Qed.

Lemma get_object_refused (request : Request) (kwargs : gmap string Z) (w : World)
    (u : User) :
  (∀ rows, backends request rows ⊆ rows) →
  method request ∉ permissions.SAFE_METHODS →
  user request = Authenticated u →
  role u ≠ RoleAdmin →
  role u ≠ RoleModerator →
  (∀ row, row ∈ reviews w → kwargs !! "pk" = Some (review_pk row) →
          review_author row ≠ user_pk u) →
  ∃ e, ReviewViewSet.get_object backends request kwargs w = (Raise e, w)
       ∧ stops_short request e.
Proof.
  intros Hnarrow Hunsafe Huser Hadmin Hmod Hstranger.
  destruct (ReviewViewSet.get_title kwargs w) as [[t|e] w0] eqn:Hget.
  - assert (w0 = w) as ->.
    { unfold ReviewViewSet.get_title, get_object_or_404 in Hget.
      destruct (find _ (titles w)); by injection Hget. }
    rewrite (get_object_of_title _ _ _ _ Hget).
    destruct (kwargs !! "pk") as [pk|] eqn:Hpk.
    2:{ exists AssertionError. split; [reflexivity | unfold stops_short; tauto]. }
    destruct (find _ (backends request _)) as [row|] eqn:Hfind.
    2:{ exists Http404. split; [reflexivity | unfold stops_short; tauto]. }
    apply find_some in Hfind as [Hin Hrow%bool_decide_eq_true].
    apply list_elem_of_In, Hnarrow, list_elem_of_filter in Hin as [_ Hin].
    rewrite has_object_permission_branches, Huser. simpl.
    unfold is_admin, is_moderator.
    rewrite (bool_decide_eq_false_2 _ Hadmin), (bool_decide_eq_false_2 _ Hmod).
    simpl.
    destruct (find _ (users w)) as [writer|] eqn:Hwriter.
    + apply find_some in Hwriter as [_ Hwriter%bool_decide_eq_true].
      rewrite bool_decide_eq_false_2.
      * destruct (is_safe (method request)) eqn:Hsafe.
        { by apply is_safe_spec in Hsafe. }
        simpl. rewrite permission_denied_response, Huser. simpl.
        exists PermissionDenied. split; [reflexivity | unfold stops_short; tauto].
      * rewrite Hwriter. apply Hstranger; [done|]. by rewrite Hrow.
    + exists ObjectDoesNotExist. split; [reflexivity | unfold stops_short; tauto].
  - assert (e = Http404 ∧ w0 = w) as [-> ->].
    { unfold ReviewViewSet.get_title, get_object_or_404 in Hget.
      destruct (find _ (titles w)); by injection Hget. }
    exists Http404. split; [|unfold stops_short; tauto].
    unfold ReviewViewSet.get_object, ReviewViewSet.filtered_queryset,
      ReviewViewSet.get_queryset.
    by apply bind_raise, bind_raise, bind_raise.
Qed.

(** X17: on an item of the Reviews endpoint a request with an unsafe
    method, sent by someone who is neither an admin nor a moderator and
    who did not write the review the URL names, never changes the store
    and is never answered with a success, whatever the serializer and the
    deletion would do and whichever rows the filter backends select: the
    answer is 401, 403, 404 or 405, or the request fails on the assertion
    that the URL carries the lookup key, or on a review whose author is
    not stored. *)
Theorem review_write_needs_authority (request : Request) (kwargs : gmap string Z)
    (w w' : World) (outcome : Outcome Response) :
  (∀ rows, backends request rows ⊆ rows) →
  method request ∉ permissions.SAFE_METHODS →
  authenticated_and is_admin (user request) = false →
  authenticated_and is_moderator (user request) = false →
  (∀ row u, row ∈ reviews w → kwargs !! "pk" = Some (review_pk row) →
            user request = Authenticated u → review_author row ≠ user_pk u) →
  serve reviews_cls DetailRoute request kwargs w = (outcome, w') →
  w' = w
  ∧ match outcome with
    | Return r => status_code r ∈ [status.HTTP_401_UNAUTHORIZED;
                                   status.HTTP_403_FORBIDDEN;
                                   status.HTTP_404_NOT_FOUND;
                                   status.HTTP_405_METHOD_NOT_ALLOWED]
    | Raise e => e = AssertionError ∨ e = ObjectDoesNotExist
    end.
Proof.
  intros Hnarrow Hunsafe Hadmin Hmod Hstranger.
  assert (Hnot_safe : is_safe (method request) = false).
  { destruct (is_safe (method request)) eqn:Hsafe; [|done].
    by apply is_safe_spec in Hsafe. }
  assert (Hunsafe' : ∀ m, m ∈ permissions.SAFE_METHODS → method request ≠ m).
  { intros m Hm Heq. apply Hunsafe. by rewrite Heq. }
  destruct (user request) as [|u] eqn:Huser.
  - rewrite (serve_refused _ _ _ _ _ IsAuthorOrReadOnlyPermission.cls);
      [|reflexivity|].
    + unfold refusal. rewrite Huser. intros [= <- <-].
      split; [reflexivity|]. simpl. apply list_elem_of_here.
    + simpl. unfold IsAuthorOrReadOnlyPermission.has_permission.
      by rewrite Hnot_safe, Huser.
  - rewrite (serve_admitted _ _ _ _ _ IsAuthorOrReadOnlyPermission.cls);
      [|reflexivity|].
    2:{ simpl. unfold IsAuthorOrReadOnlyPermission.has_permission.
        rewrite Huser. apply orb_true_r. }
    simpl in Hadmin, Hmod.
    apply bool_decide_eq_false in Hadmin, Hmod.
    destruct (get_object_refused request kwargs w u Hnarrow Hunsafe Huser Hadmin Hmod)
      as (e & Hget & Hstop).
    { intros row Hin Hpk. by apply (Hstranger row u). }
    assert (Hhandler : ∃ e', handler_for reviews_cls DetailRoute (method request)
                                         request kwargs w = (Raise e', w)
                             ∧ stops_short request e').
    { unfold handler_for.
      repeat case_bool_decide.
      - exfalso. apply (Hunsafe' "GET"); [|done]. by apply (bool_decide_unpack _).
      - exfalso. apply (Hunsafe' "HEAD"); [|done]. by apply (bool_decide_unpack _).
      - exists e. split; [|done]. simpl. unfold ModelViewSet_update.
        by apply bind_raise.
      - exists e. split; [|done]. unfold partial_update. simpl.
        unfold ModelViewSet_update. by apply bind_raise.
      - exists e. split; [|done]. simpl. unfold ModelViewSet_destroy.
        by apply bind_raise.
      - exfalso. apply (Hunsafe' "OPTIONS"); [|done]. by apply (bool_decide_unpack _).
      - exists (MethodNotAllowed (method request)).
        split; [reflexivity | unfold stops_short; tauto]. }
    destruct Hhandler as (e' & Hhandler & Hstop').
    rewrite (handle_exception_raise _ _ _ _ Hhandler).
    destruct Hstop' as [-> | [-> | [-> | [-> | ->]]]]; simpl; intros [= <- <-];
      (split; [reflexivity|]); simpl;
      rewrite ?elem_of_cons; unfold status.HTTP_401_UNAUTHORIZED,
        status.HTTP_403_FORBIDDEN, status.HTTP_404_NOT_FOUND,
        status.HTTP_405_METHOD_NOT_ALLOWED; tauto.
Qed.

(** X18: an authenticated admin or moderator can delete any review: when
    the URL names a stored Title and the reviews of that Title the filter
    backends select hold one with the key of the URL, the DELETE passes
    both permission checks without the author of the review being read,
    hands such a review to [instance.delete()], and is answered 204 when
    the deletion returns. *)
Theorem review_destroy_by_staff (request : Request) (kwargs : gmap string Z)
    (w : World) (u : User) (title_id pk : Z) :
  method request = "DELETE" →
  user request = Authenticated u →
  role u = RoleAdmin ∨ role u = RoleModerator →
  kwargs !! "title_id" = Some title_id →
  kwargs !! "pk" = Some pk →
  (∃ t, t ∈ titles w ∧ title_pk t = title_id) →
  pk ∈ review_pk <$> backends request
                       (filter (λ r, review_title r = title_id) (reviews w)) →
  ∃ row,
    row ∈ backends request (filter (λ r, review_title r = title_id) (reviews w))
    ∧ review_pk row = pk
    ∧ ReviewViewSet.get_object backends request kwargs w = (Return row, w)
    ∧ serve reviews_cls DetailRoute request kwargs w
      = handle_exception
          (delete_review row;;
           mret (mkResponse NoData status.HTTP_204_NO_CONTENT)) w.
Proof.
  intros Hdelete Huser Hrole Htitle Hpk Htitles Hlisted.
  destruct (get_title_found _ _ _ Htitle Htitles) as (t & Hget & _ & Ht).
  pose proof (get_object_of_title request kwargs w t Hget) as Hobject.
  rewrite Hpk, Ht in Hobject.
  destruct (find _ (backends request _)) as [row|] eqn:Hfind.
  2:{ exfalso. apply list_elem_of_fmap in Hlisted as (row & -> & Hin).
      apply list_elem_of_In in Hin.
      pose proof (find_none _ _ Hfind row Hin) as Hno. simpl in Hno.
      by apply bool_decide_eq_false in Hno. }
  apply find_some in Hfind as [Hin%list_elem_of_In Hrow%bool_decide_eq_true].
  assert (Hpass : IsAuthorOrReadOnlyPermission.has_object_permission
                    request (ReviewViewSet.as_obj w row) = Return true).
  { rewrite has_object_permission_branches, Huser. simpl.
    unfold is_admin, is_moderator. by destruct Hrole as [-> | ->]. }
  rewrite Hpass in Hobject.
  exists row. split_and!; [done..|].
  rewrite (serve_admitted _ _ _ _ _ IsAuthorOrReadOnlyPermission.cls);
    [|reflexivity|].
  2:{ simpl. unfold IsAuthorOrReadOnlyPermission.has_permission.
      rewrite Huser. apply orb_true_r. }
  rewrite Hdelete. simpl. unfold ModelViewSet_destroy, handle_exception.
  by rewrite (bind_return _ _ _ _ _ Hobject).
Qed.

(** X19: reading the reviews of a Title is open to everyone: a GET on the
    list, whoever sends it, changes nothing; it is answered 404 when the
    URL names no Title, and otherwise 200 with the stored reviews of the
    Title of the URL that the filter backends select, rendered in full
    when the paginator declines and as the page it cuts out when it does
    not. *)
Theorem review_list_is_public (request : Request) (kwargs : gmap string Z)
    (w : World) :
  method request = "GET" →
  ((∀ t, t ∈ titles w → kwargs !! "title_id" ≠ Some (title_pk t)) →
   serve reviews_cls ListRoute request kwargs w
   = (Return (mkResponse NoData status.HTTP_404_NOT_FOUND), w))
  ∧ (∀ title_id,
       kwargs !! "title_id" = Some title_id →
       (∃ t, t ∈ titles w ∧ title_pk t = title_id) →
       let selected :=
         backends request (filter (λ r, review_title r = title_id) (reviews w)) in
       serve reviews_cls ListRoute request kwargs w
       = (Return (mkResponse
                    match paginate_queryset request selected with
                    | Some page =>
                        get_paginated_response request selected
                                               (serializer_data <$> page)
                    | None => ListData (serializer_data <$> selected)
                    end
                    status.HTTP_200_OK), w)).
Proof.
  intros Hget.
  assert (Hserve : serve reviews_cls ListRoute request kwargs w
                   = handle_exception
                       (handler_for reviews_cls ListRoute (method request)
                                    request kwargs) w).
  { apply (serve_admitted _ _ _ _ _ IsAuthorOrReadOnlyPermission.cls);
      [reflexivity|].
    simpl. unfold IsAuthorOrReadOnlyPermission.has_permission. by rewrite Hget. }
  rewrite Hserve, Hget. simpl. unfold ModelViewSet_list. split.
  - intros Hmissing. apply (handle_exception_raise _ _ _ Http404).
    apply bind_raise. by apply filtered_queryset_missing.
  - intros title_id Hkw Hexists.
    destruct (get_title_found _ _ _ Hkw Hexists) as (t & Htitle & _ & Hpk).
    apply handle_exception_return.
    rewrite (bind_return _ _ _ _ _ (filtered_queryset_of_title request _ _ _ Htitle)).
    by rewrite Hpk.
Qed.
End review_authority.

Lemma review_write_needs_authority_witness :
  serve reviews_viewset DetailRoute (request_of "PATCH" (Authenticated bob))
        first_review shelf
  = (Return (mkResponse NoData status.HTTP_403_FORBIDDEN), shelf)
  ∧ shelf = shelf
  ∧ status.HTTP_403_FORBIDDEN ∈ [status.HTTP_401_UNAUTHORIZED;
                                 status.HTTP_403_FORBIDDEN;
                                 status.HTTP_404_NOT_FOUND;
                                 status.HTTP_405_METHOD_NOT_ALLOWED].
Proof.
  split; [reflexivity|].
  apply (review_write_needs_authority unfiltered unpaginated no_page
           (λ row, {[ "text" := text row ]})
           (λ _ _, Return spoofed_body) (λ _ instance _, mret instance) drop_review
           (request_of "PATCH" (Authenticated bob)) first_review shelf shelf
           (Return (mkResponse NoData status.HTTP_403_FORBIDDEN))).
  - intros rows. reflexivity.
  - by apply (bool_decide_unpack _).
  - reflexivity.
  - reflexivity.
  - intros row u Hin Hpk [= <-].
    repeat (apply elem_of_cons in Hin as [-> | Hin]); try done.
    by apply elem_of_nil in Hin.
  - reflexivity.
Defined.

Lemma review_destroy_by_staff_witness :
  ∃ row,
    row ∈ filter (λ r, review_title r = 1) (reviews shelf)
    ∧ review_pk row = 1
    ∧ ReviewViewSet.get_object unfiltered (request_of "DELETE" (Authenticated carol))
                               first_review shelf
      = (Return row, shelf)
    ∧ serve reviews_viewset DetailRoute (request_of "DELETE" (Authenticated carol))
            first_review shelf
      = handle_exception
          (drop_review row;; mret (mkResponse NoData status.HTTP_204_NO_CONTENT))
          shelf.
Proof.
  apply (review_destroy_by_staff unfiltered unpaginated no_page
           (λ row, {[ "text" := text row ]})
           (λ _ _, Return spoofed_body) (λ _ instance _, mret instance) drop_review
           (request_of "DELETE" (Authenticated carol)) first_review shelf carol 1 1).
  - reflexivity.
  - reflexivity.
  - by right.
  - reflexivity.
  - reflexivity.
  - exists dune. split; [apply list_elem_of_here | reflexivity].
  - apply (bool_decide_unpack _). vm_compute. exact I.
Defined.

Lemma review_list_is_public_witness :
  serve reviews_viewset ListRoute (request_of "GET" AnonymousUser)
        {[ "title_id" := 1 ]} shelf
  = (Return (mkResponse (ListData [{[ "text" := "slow" ]}; {[ "text" := "great" ]}])
                        status.HTTP_200_OK), shelf)
  ∧ serve paged_reviews_viewset ListRoute (request_of "GET" AnonymousUser)
          {[ "title_id" := 1 ]} shelf
    = (Return (mkResponse (PageData 2 (Some "?limit=1&offset=1") None
                                    [{[ "text" := "slow" ]}])
                          status.HTTP_200_OK), shelf)
  ∧ serve reviews_viewset ListRoute (request_of "GET" AnonymousUser)
          {[ "title_id" := 9 ]} shelf
    = (Return (mkResponse NoData status.HTTP_404_NOT_FOUND), shelf).
Proof.
  split_and!.
  - apply (proj2 (review_list_is_public unfiltered unpaginated no_page
                    (λ row, {[ "text" := text row ]})
                    (λ _ _, Return spoofed_body) (λ _ instance _, mret instance)
                    drop_review
                    (request_of "GET" AnonymousUser) {[ "title_id" := 1 ]} shelf
                    eq_refl) 1); [reflexivity|].
    exists dune. split; [apply list_elem_of_here | reflexivity].
  - apply (proj2 (review_list_is_public unfiltered first_row page_of
                    (λ row, {[ "text" := text row ]})
                    (λ _ _, Return spoofed_body) (λ _ instance _, mret instance)
                    drop_review
                    (request_of "GET" AnonymousUser) {[ "title_id" := 1 ]} shelf
                    eq_refl) 1); [reflexivity|].
    exists dune. split; [apply list_elem_of_here | reflexivity].
  - apply (proj1 (review_list_is_public unfiltered unpaginated no_page
                    (λ row, {[ "text" := text row ]})
                    (λ _ _, Return spoofed_body) (λ _ instance _, mret instance)
                    drop_review
                    (request_of "GET" AnonymousUser) {[ "title_id" := 9 ]} shelf
                    eq_refl)).
    intros t Hin.
    repeat (apply elem_of_cons in Hin as [-> | Hin]); [done | done |].
    by apply elem_of_nil in Hin.
Defined.

(** ** The Reviews endpoint: what else stops a request *)

Example review_destroy_without_key :
  serve reviews_viewset DetailRoute (request_of "DELETE" (Authenticated carol))
        {[ "title_id" := 1 ]} shelf
  = (Raise AssertionError, shelf).
Proof. reflexivity. Qed.

Example review_update_unknown_author :
  serve reviews_viewset DetailRoute (request_of "PATCH" (Authenticated bob))
        first_review (set_users (filter (λ u, user_pk u ≠ 1)) shelf)
  = (Raise ObjectDoesNotExist, set_users (filter (λ u, user_pk u ≠ 1)) shelf).
Proof. reflexivity. Qed.
